(** * sup: the orchestration engine of [sup.go]

    A shallow embedding of [ResolvePath], [addPublicKeySigner] and
    [Stackup.Run], with the properties of the run that the design document
    states about them.

    Go values are modelled as follows.
    - [string] and [[]byte] are Rocq strings (sequences of 8-bit characters),
      so [len] is [String.length].
    - [int] is [Z].  The only integers of [Run] are lengths of strings held in
      memory and remote exit statuses, far inside the machine range.
    - A call returning [(T, error)] returns a [result T]; an [error] return
      value is an [option error], [None] being [nil].
    - A run-time panic and [os.Exit] end the computation: see [outcome].
    - Everything [Run] does to the outside (connections, started tasks,
      bytes written to the process streams) is appended to the [events] of the
      state; what the outside answers is read from a [World].
    - Goroutines that run side by side touch different clients; they are run
      one after the other, in the order in which the [World] says they end,
      so that the contents of the channels and the first call of [os.Exit]
      are those of that interleaving. *)

From Stdlib Require Import String Ascii List ZArith Lia Bool Permutation Arith.
Import ListNotations.
Local Open Scope string_scope.

Set Implicit Arguments.

(** ** Outcomes and results *)

(** The error values [Run] distinguishes. *)
Inductive error : Type :=
| ErrNew (msg : string)                 (* errors.New, and opaque library errors *)
| ErrWrap (cause : error) (msg : string) (* errors.Wrap(cause, msg) *)
| ExitError (status : Z)                (* an ssh.ExitError, with its ExitStatus() *)
| EOF.                                  (* the sentinel io.EOF *)

Inductive result (A : Type) : Type :=
| Ok (a : A)
| Err (e : error).
Arguments Err {A} e.

(** How a piece of Go code ends: with a value, with a run-time panic, or
    with the process gone through [os.Exit]. *)
Inductive outcome (A : Type) : Type :=
| Val (a : A)
| Panic (msg : string)
| Exit (code : Z).
Arguments Panic {A} msg.
Arguments Exit {A} code.

Definition obind {A B} (o : outcome A) (k : A -> outcome B) : outcome B :=
  match o with
  | Val a => k a
  | Panic m => Panic m
  | Exit c => Exit c
  end.

(** ** The Go primitives used by the source *)

Module Go.

(** [s[:n]] *)
Definition slice_to (s : string) (n : nat) : outcome string :=
  if (n <=? String.length s)%nat then Val (substring 0 n s)
  else Panic "slice bounds out of range".

(** [s[n:]] *)
Definition slice_from (s : string) (n : nat) : outcome string :=
  if (n <=? String.length s)%nat then Val (substring n (String.length s - n) s)
  else Panic "slice bounds out of range".

(** [strings.HasPrefix(s, p)] *)
Definition HasPrefix (s p : string) : bool := String.prefix p s.

(** [strings.HasSuffix(s, suffix)] *)
Definition HasSuffix (s suffix : string) : bool :=
  (String.length suffix <=? String.length s)%nat &&
  (substring (String.length s - String.length suffix) (String.length suffix) s
     =? suffix).

Fixpoint repeat_string (s : string) (n : nat) : string :=
  match n with
  | O => ""
  | S n' => s ++ repeat_string s n'
  end.

(** [strings.Repeat(s, count)]: panics on a negative count. *)
Definition Repeat (s : string) (count : Z) : outcome string :=
  if (count <? 0)%Z then Panic "strings: negative Repeat count"
  else Val (repeat_string s (Z.to_nat count)).

(** [len(s)] as an [int]. *)
Definition len (s : string) : Z := Z.of_nat (String.length s).

End Go.

(** The double-quote character of the Go raw strings of line 131. *)
Definition dquote : string := String (ascii_of_nat 34) EmptyString.

(** ** Data *)

(** [ssh.Signer]: an identity, named by its key. *)
Record Signer : Type := mkSigner { signer_key : string }.

Definition bytes : Type := string.

Record Host : Type := mkHost {
  Hostname : string;
  User : string
}.

Record Network : Type := mkNetwork {
  Name : string;
  Hosts : list Host;
  Bastion : option Host;        (* *Host, nil when no relay is configured *)
  NetUser : string;             (* network.User *)
  Password : string;
  IdentityFile : string
}.

Record Stackup : Type := mkStackup {
  debug : bool;
  prefix : bool;
  ignoreHostKey : bool
}.

Record SSHClient : Type := mkSSHClient {
  ssh_env : string;
  ssh_host : Host;
  ssh_password : string;
  ssh_color : string;
  ssh_ignoreHostKey : bool
}.

Record LocalhostClient : Type := mkLocalhostClient {
  local_env : string
}.

(** The [Client] interface has two implementations.  A client is a pointer to
    a freshly allocated object: [addr] is that identity (the index of the host
    whose goroutine allocated it), so that two hosts of the same name give two
    units. *)
Inductive Client : Type :=
| Local (addr : nat) (c : LocalhostClient)
| Remote (addr : nat) (c : SSHClient).

(** [Command] is opaque to [Run]; a [Task] is used through its [Clients] and
    its [Input]. *)
Record Command : Type := mkCommand { cmd_name : string }.

Record Task : Type := mkTask {
  task_run : string;
  Input : option string;        (* io.Reader, nil when the task has no input *)
  Clients : list Client
}.

Definition EnvList : Type := list (string * string).

(** ** Observable effects *)

Inductive event : Type :=
| EvWarning (err : error) (network identity_file : string)
    (* Fprintf(os.Stderr, "Warning: %s Encrypted Key? (network: %s identity_file: %s)\n", ...) *)
| EvBastionConnect (b : SSHClient)            (* bastion.Connect() *)
| EvConnect (c : Client)                      (* c.Connect() *)
| EvConnectWith (c : Client) (b : SSHClient)  (* remote.ConnectWith(bastion.DialThrough) *)
| EvCreateTasks (cmd : Command) (clients : list Client)
| EvRun (c : Client) (t : Task)               (* c.Run(task) *)
| EvCopyStdout (c : Client) (pfx : string)    (* io.Copy(os.Stdout, prefixer.New(c.Stdout(), prefix)) *)
| EvCopyStderr (c : Client) (pfx : string)    (* io.Copy(os.Stderr, prefixer.New(c.Stderr(), prefix)) *)
| EvCopyStdin (t : Task) (writers : list Client)
    (* io.Copy(io.MultiWriter(writers...), task.Input) *)
| EvWriteClose (c : Client)                   (* c.WriteClose() *)
| EvNotify                                    (* signal.Notify(trap, os.Interrupt) *)
| EvSignalStop                                (* signal.Stop(trap); close(trap) *)
| EvWait (c : Client)                         (* c.Wait() *)
| EvStderr (e : error)                        (* Fprintf(os.Stderr, "%v", e) *)
| EvStderrLine (pfx : string) (e : error)     (* Fprintf(os.Stderr, "%s%v\n", prefix, e) *)
| EvClose (c : Client).                       (* the deferred remote.Close() *)

(** ** The outside world *)

(** What the operating system, the libraries and the parts of the package
    that [sup.go] only calls answer during one run. *)
Record World : Type := mkWorld {
  Getenv : string -> string;                      (* os.Getenv *)
  user_Current : result string;                   (* user.Current(), its HomeDir *)
  filepath_Join : string -> string -> string;     (* filepath.Join *)
  filepath_Glob : string -> list string;          (* filepath.Glob, error dropped *)
  ioutil_ReadFile : string -> result bytes;
  ssh_ParsePrivateKey : bytes -> result Signer;
  ssh_ParsePrivateKeyWithPassphrase : bytes -> bytes -> result Signer;
  (* net.Dial("unix", sock): [None] when the dial fails, otherwise what
     agent.NewClient(sock).Signers() returns, its error dropped. *)
  agent_Signers : string -> option (list Signer);
  AsExport : EnvList -> string;                   (* EnvList.AsExport *)
  Colors : list string;                           (* the package's palette *)
  bastion_Connect : SSHClient -> option error;    (* Connect of the relay's SSHClient *)
  client_Connect : Client -> option error;        (* Connect of a unit *)
  client_ConnectWith : Client -> SSHClient -> option error;
  client_Prefix : Client -> string * Z;           (* Prefix(): text and visual length *)
  createTasks : Command -> list Client -> string -> result (list Task);
  client_Run : Client -> Task -> option error;
  client_Wait : Client -> Task -> option error;
  copy_Stdout : Client -> Task -> option error;   (* what io.Copy returns *)
  copy_Stderr : Client -> Task -> option error;
  (* The copy of the task's input is not awaited: [None] when it does not
     end during the task, otherwise what io.Copy returns. *)
  copy_Stdin : Task -> option (option error);
  (* The order in which the host goroutines end, as positions in
     network.Hosts, and the order in which the goroutines waiting for the
     units of a task end. *)
  connect_order : list nat;
  wait_order : Task -> list nat
}.

(** ** State *)

Record state : Type := mkState {
  publicKeysSigners : list Signer;   (* the package-level variable *)
  events : list event                (* effects so far, oldest first *)
}.

Definition M (A : Type) : Type := state -> outcome A * state.

Definition ret {A} (a : A) : M A := fun st => (Val a, st).

Definition bind {A B} (m : M A) (k : A -> M B) : M B :=
  fun st =>
    match m st with
    | (Val a, st') => k a st'
    | (Panic msg, st') => (Panic msg, st')
    | (Exit c, st') => (Exit c, st')
    end.

Declare Scope go_scope.
Delimit Scope go_scope with go.
Notation "x <- m ;; k" := (bind m (fun x => k))
  (at level 61, m at next level, right associativity) : go_scope.
Notation "m ;;; k" := (bind m (fun _ => k))
  (at level 61, right associativity) : go_scope.
Local Open Scope go_scope.

Definition lift {A} (o : outcome A) : M A := fun st => (o, st).

Definition emit (e : event) : M unit :=
  fun st => (Val tt, mkState (publicKeysSigners st) (events st ++ [e])).

Definition get_signers : M (list Signer) :=
  fun st => (Val (publicKeysSigners st), st).

Definition set_signers (l : list Signer) : M unit :=
  fun st => (Val tt, mkState l (events st)).

(** [os.Exit(code)] *)
Definition os_Exit {A} (code : Z) : M A := fun st => (Exit code, st).

(** [go func() { body }()]: a panic that nothing recovers in a goroutine ends
    the process at once with status 2; the deferred calls of the other
    goroutines do not run. *)
Definition go {A} (body : M A) : M A :=
  fun st =>
    match body st with
    | (Panic _, st') => (Exit 2%Z, st')
    | r => r
    end.

(** [for _, x := range l { body }] *)
Fixpoint forM_ {A} (l : list A) (body : A -> M unit) : M unit :=
  match l with
  | [] => ret tt
  | x :: l' => body x ;;; forM_ l' body
  end.

(** ** [ResolvePath] (lines 36-47) *)

Definition ResolvePath (w : World) (path : string) : outcome string :=
  if path =? "" then Val ""
  else
    obind (Go.slice_to path 2) (fun head =>
      if head =? "~/" then
        match user_Current w with
        | Ok homeDir =>
            obind (Go.slice_from path 2) (fun rest =>
              Val (filepath_Join w homeDir rest))
        | Err _ => Val path
        end
      else Val path).

(** ** [addPublicKeySigner] (lines 52-71) *)

(** Lines 58-68: the key is parsed, and when that fails and a password is
    set, parsed again with the password as passphrase; the value is the
    [signer, err] that reaches line 69. *)
Definition parse_key (w : World) (key : bytes) (password : string)
  : result Signer :=
  match ssh_ParsePrivateKey w key with
  | Ok signer => Ok signer
  | Err err =>
      if negb (password =? "")
      then ssh_ParsePrivateKeyWithPassphrase w key password
      else Err err
  end.

(** Line 69. *)
Definition append_signer (s : Signer) : M unit :=
  l <- get_signers ;; set_signers (l ++ [s]).

Definition addPublicKeySigner (w : World) (file password : string)
  : M (option error) :=
  p <- lift (ResolvePath w file) ;;
  match ioutil_ReadFile w p with
  | Err err => ret (Some err)
  | Ok key =>
      match parse_key w key password with
      | Err err => ret (Some err)
      | Ok signer => append_signer signer ;;; ret None
      end
  end.

(** ** Credential resolution (lines 83-104 of [Run]) *)

Definition use_agent (w : World) : M unit :=
  match agent_Signers w (Getenv w "SSH_AUTH_SOCK") with
  | Some signers => set_signers signers
  | None => ret tt
  end.

(** The loop of lines 98-103 over the default identity files. *)
Definition default_keys (w : World) (network : Network) (files : list string)
  : M unit :=
  forM_ files (fun f =>
    if Go.HasSuffix f ".pub" then ret tt
    else _ <- addPublicKeySigner w f (Password network) ;; ret tt).

Definition resolve_signers (w : World) (network : Network) : M unit :=
  use_agent w ;;;
  if negb (IdentityFile network =? "") then
    err <- addPublicKeySigner w (IdentityFile network) (Password network) ;;
    match err with
    | Some e => emit (EvWarning e (Name network) (IdentityFile network))
    | None => ret tt
    end
  else
    let files := filepath_Glob w (Getenv w "HOME" ++ "/.ssh/id_*") in
    default_keys w network files.

(** ** The connector (lines 106-186 of [Run]) *)

(** Lines 107-117: the relay is connected first, in the calling goroutine. *)
Definition connect_bastion (w : World) (sup : Stackup) (network : Network)
  : M (result (option SSHClient)) :=
  match Bastion network with
  | Some b =>
      let bastion := mkSSHClient "" b (Password network) "" (ignoreHostKey sup) in
      emit (EvBastionConnect bastion) ;;;
      match bastion_Connect w bastion with
      | Some err => ret (Err (ErrWrap err "connecting to bastion failed"))
      | None => ret (Ok (Some bastion))
      end
  | None => ret (Ok None)
  end.

(** The test of line 129. *)
Definition is_localhost (host : Host) : bool :=
  (Hostname host =? "localhost") || Go.HasPrefix (Hostname host) "127.".

(** [Colors[i%len(Colors)]]: the remainder panics on an empty palette. *)
Definition pick_color (w : World) (i : nat) : outcome string :=
  match Colors w with
  | [] => Panic "integer divide by zero"
  | c :: cs => Val (nth (i mod List.length (c :: cs)) (c :: cs) "")
  end.

(** Lines 125-166: the goroutine of host [i].  Its value is what it sends:
    [Ok c] on [clientCh], [Err e] on [errCh]. *)
Definition host_goroutine (w : World) (sup : Stackup) (network : Network)
  (env : string) (bastion : option SSHClient) (i : nat) (host : Host)
  : M (result Client) :=
  if is_localhost host then
    let local := Local i (mkLocalhostClient
      (env ++ "export SUP_HOST=" ++ dquote ++ Hostname host ++ dquote ++ ";")) in
    emit (EvConnect local) ;;;
    match client_Connect w local with
    | Some err => ret (Err (ErrWrap err "connecting to localhost failed"))
    | None => ret (Ok local)
    end
  else
    let host := if User host =? "" then mkHost (Hostname host) (NetUser network)
                else host in
    color <- lift (pick_color w i) ;;
    let remote := Remote i (mkSSHClient env host (Password network) color
                              (ignoreHostKey sup)) in
    match bastion with
    | Some b =>
        emit (EvConnectWith remote b) ;;;
        match client_ConnectWith w remote b with
        | Some err =>
            ret (Err (ErrWrap err "connecting to remote host through bastion failed"))
        | None => ret (Ok remote)
        end
    | None =>
        emit (EvConnect remote) ;;;
        match client_Connect w remote with
        | Some err => ret (Err (ErrWrap err "connecting to remote host failed"))
        | None => ret (Ok remote)
        end
    end.

(** The elements of [l] at the positions [order], with their positions: the
    goroutines started by a [range] loop, in the order in which they end. *)
Definition scheduled {A} (order : list nat) (l : list A) : list (nat * A) :=
  flat_map (fun i => match nth_error l i with
                     | Some x => [(i, x)]
                     | None => []
                     end) order.

(** Lines 119-170: every host goroutine runs to its end and sends on one of
    the two channels, which are buffered for all of them. *)
Fixpoint connect_loop (w : World) (sup : Stackup) (network : Network)
  (env : string) (bastion : option SSHClient) (jobs : list (nat * Host))
  (clientCh : list Client) (errCh : list error)
  : M (list Client * list error) :=
  match jobs with
  | [] => ret (clientCh, errCh)
  | (i, host) :: jobs' =>
      r <- go (host_goroutine w sup network env bastion i host) ;;
      match r with
      | Ok c => connect_loop w sup network env bastion jobs' (clientCh ++ [c]) errCh
      | Err e => connect_loop w sup network env bastion jobs' clientCh (errCh ++ [e])
      end
  end.

Definition connect_hosts (w : World) (sup : Stackup) (network : Network)
  (env : string) (bastion : option SSHClient) : M (list Client * list error) :=
  connect_loop w sup network env bastion
    (scheduled (connect_order w) (Hosts network)) [] [].

(** Lines 172-183: [clientCh] is drained; every remote client gets a deferred
    [Close] (the list is the defer stack, last registered first). *)
Fixpoint drain (w : World) (clientCh : list Client) (maxLen : Z)
  (clients : list Client) (deferred : list Client)
  : Z * list Client * list Client :=
  match clientCh with
  | [] => (maxLen, clients, deferred)
  | client :: rest =>
      let deferred' := match client with
                       | Remote _ _ => client :: deferred
                       | Local _ _ => deferred
                       end in
      let prefixLen := snd (client_Prefix w client) in
      let maxLen' := if (prefixLen >? maxLen)%Z then prefixLen else maxLen in
      drain w rest maxLen' (clients ++ [client]) deferred'
  end.

(** ** The run loop (lines 188-314 of [Run]) *)

(** Lines 203-210, and again lines 286-293. *)
Definition padded_prefix (w : World) (sup : Stackup) (maxLen : Z) (c : Client)
  : outcome string :=
  if prefix sup then
    let pfx := fst (client_Prefix w c) in
    let prefixLen := snd (client_Prefix w c) in
    if (Go.len pfx <? maxLen)%Z then
      obind (Go.Repeat " " (maxLen - prefixLen)) (fun pad => Val (pad ++ pfx))
    else Val pfx
  else Val "".

(** [err != nil && err != io.EOF] *)
Definition is_failure (r : option error) : option error :=
  match r with
  | Some EOF => None
  | other => other
  end.

(** Lines 219-227. *)
Definition stdout_goroutine (w : World) (task : Task) (c : Client)
  (pfx : string) : M unit :=
  emit (EvCopyStdout c pfx) ;;;
  match is_failure (copy_Stdout w c task) with
  | Some err => emit (EvStderr (ErrWrap err (pfx ++ "reading STDOUT failed")))
  | None => ret tt
  end.

(** Lines 231-237. *)
Definition stderr_goroutine (w : World) (task : Task) (c : Client)
  (pfx : string) : M unit :=
  emit (EvCopyStderr c pfx) ;;;
  match is_failure (copy_Stderr w c task) with
  | Some err => emit (EvStderr (ErrWrap err (pfx ++ "reading STDERR failed")))
  | None => ret tt
  end.

(** Lines 202-240: the task is started on its clients, one after the other;
    the value is the early [return] of line 214 or the writers collected. *)
Fixpoint start_units (w : World) (sup : Stackup) (maxLen : Z) (task : Task)
  (cs : list Client) (writers : list Client) : M (result (list Client)) :=
  match cs with
  | [] => ret (Ok writers)
  | c :: cs' =>
      pfx <- lift (padded_prefix w sup maxLen c) ;;
      emit (EvRun c task) ;;;
      match client_Run w c task with
      | Some err => ret (Err (ErrWrap err (pfx ++ "task failed")))
      | None =>
          go (stdout_goroutine w task c pfx) ;;;
          go (stderr_goroutine w task c pfx) ;;;
          start_units w sup maxLen task cs' (writers ++ [c])
      end
  end.

(** Lines 243-255: nothing waits for this goroutine; when its copy ends, it
    closes the input of all the [clients] of the run. *)
Definition stdin_goroutine (w : World) (clients : list Client) (task : Task)
  (writers : list Client) : M unit :=
  match Input task with
  | None => ret tt
  | Some _ =>
      emit (EvCopyStdin task writers) ;;;
      match copy_Stdin w task with
      | None => ret tt
      | Some r =>
          match is_failure r with
          | Some err => emit (EvStderr (ErrWrap err "copying STDIN failed"))
          | None => ret tt
          end ;;;
          forM_ clients (fun c => emit (EvWriteClose c))
      end
  end.

(** The type assertion of line 294 to an ssh.ExitError, then
    [e.ExitStatus()]. *)
Definition as_ExitError (err : error) : option Z :=
  match err with
  | ExitError status => Some status
  | _ => None
  end.

(** Lines 283-304: the goroutine waiting for client [c]. *)
Definition wait_goroutine (w : World) (sup : Stackup) (maxLen : Z)
  (task : Task) (c : Client) : M unit :=
  emit (EvWait c) ;;;
  match client_Wait w c task with
  | None => ret tt
  | Some err =>
      pfx <- lift (padded_prefix w sup maxLen c) ;;
      let generic := emit (EvStderrLine pfx err) ;;; os_Exit 1%Z in
      match as_ExitError err with
      | Some status =>
          if negb (status =? 15)%Z
          then emit (EvStderrLine pfx err) ;;; os_Exit status
          else generic
      | None => generic
      end
  end.

(** Lines 281-308: the waiting goroutines, in the order in which they end. *)
Definition wait_phase (w : World) (sup : Stackup) (maxLen : Z) (task : Task)
  : M unit :=
  forM_ (map snd (scheduled (wait_order w task) (Clients task)))
        (fun c => go (wait_goroutine w sup maxLen task c)).

(** Lines 197-313: one task.  No interrupt reaches the process during the
    runs modelled here, so the relay of lines 258-275 only registers and
    unregisters. *)
Definition run_task (w : World) (sup : Stackup) (maxLen : Z)
  (clients : list Client) (task : Task) : M (option error) :=
  started <- start_units w sup maxLen task (Clients task) [] ;;
  match started with
  | Err err => ret (Some err)
  | Ok writers =>
      go (stdin_goroutine w clients task writers) ;;;
      emit EvNotify ;;;
      wait_phase w sup maxLen task ;;;
      emit EvSignalStop ;;;
      ret None
  end.

Fixpoint run_tasks (w : World) (sup : Stackup) (maxLen : Z)
  (clients : list Client) (tasks : list Task) : M (option error) :=
  match tasks with
  | [] => ret None
  | task :: tasks' =>
      r <- run_task w sup maxLen clients task ;;
      match r with
      | Some err => ret (Some err)
      | None => run_tasks w sup maxLen clients tasks'
      end
  end.

(** Lines 189-314. *)
Fixpoint run_commands (w : World) (sup : Stackup) (env : string) (maxLen : Z)
  (clients : list Client) (commands : list Command) : M (option error) :=
  match commands with
  | [] => ret None
  | cmd :: commands' =>
      emit (EvCreateTasks cmd clients) ;;;
      match createTasks w cmd clients env with
      | Err err => ret (Some (ErrWrap err "creating task failed"))
      | Ok tasks =>
          r <- run_tasks w sup maxLen clients tasks ;;
          match r with
          | Some err => ret (Some err)
          | None => run_commands w sup env maxLen clients commands'
          end
      end
  end.

(** ** [Run] (lines 76-317) *)

(** The deferred calls run when [Run] returns or panics, not when the
    process exits. *)
Definition with_deferred {A} (deferred : list Client) (body : M A) : M A :=
  fun st =>
    match body st with
    | (Exit code, st') => (Exit code, st')
    | (r, st') =>
        (r, mkState (publicKeysSigners st') (events st' ++ map EvClose deferred))
    end.

Definition Run (w : World) (sup : Stackup) (network : Network)
  (envVars : EnvList) (commands : list Command) : M (option error) :=
  if (List.length commands =? 0)%nat then ret (Some (ErrNew "no commands to be run"))
  else
    let env := AsExport w envVars in
    resolve_signers w network ;;;
    b <- connect_bastion w sup network ;;
    match b with
    | Err err => ret (Some err)
    | Ok bastion =>
        chans <- connect_hosts w sup network env bastion ;;
        let '(maxLen, clients, deferred) := drain w (fst chans) 0%Z [] [] in
        with_deferred deferred
          match snd chans with
          | err :: _ => ret (Some (ErrWrap err "connecting to clients failed"))
          | [] => run_commands w sup env maxLen clients commands
          end
    end.

(** ** A world to run the model in

    One host file system, one agent and a few hosts, used to evaluate the
    definitions above on concrete runs.  The prefixes are a colour escape
    sequence around [user@host | ] for a remote unit and a reset sequence
    before it for a local one; their visual length is that of
    [user@host | ]. *)

Module Example.

Definition esc : string := String (ascii_of_nat 27) EmptyString.
Definition ResetColor : string := esc ++ "[0m".
Definition green : string := esc ++ "[32m".
Definition yellow : string := esc ++ "[33m".

Definition agent_signer : Signer := mkSigner "agent-key".
Definition plain_signer : Signer := mkSigner "plain-key".
Definition locked_signer : Signer := mkSigner "locked-key".
Definition open_signer : Signer := mkSigner "open-key".

Definition passphrase_protected : error :=
  ErrNew "ssh: this private key is passphrase protected".
Definition wrong_passphrase : error :=
  ErrNew "x509: decryption password incorrect".
Definition no_such_file : error := ErrNew "no such file or directory".
Definition refused : error := ErrNew "connection refused".

Definition ReadFile (path : string) : result bytes :=
  if path =? "/keys/plain" then Ok "PLAIN"
  else if path =? "/keys/locked" then Ok "LOCKED"
  else if path =? "/keys/open" then Ok "OPEN"
  else if path =? "/keys/garbage" then Ok "GARBAGE"
  else Err no_such_file.

Definition ParsePrivateKey (key : bytes) : result Signer :=
  if key =? "PLAIN" then Ok plain_signer
  else if key =? "LOCKED" then Err passphrase_protected
  else if key =? "OPEN" then Err passphrase_protected
  else Err (ErrNew "ssh: no key found").

(** [LOCKED] is encrypted under the passphrase [secret], [OPEN] under the
    empty passphrase. *)
Definition ParsePrivateKeyWithPassphrase (key passphrase : bytes)
  : result Signer :=
  if key =? "LOCKED" then
    if passphrase =? "secret" then Ok locked_signer else Err wrong_passphrase
  else if key =? "OPEN" then
    if passphrase =? "" then Ok open_signer else Err wrong_passphrase
  else Err (ErrNew "ssh: no key found").

Definition Prefix (c : Client) : string * Z :=
  match c with
  | Local _ _ =>
      let host := "u@localhost | " in (ResetColor ++ host, Go.len host)
  | Remote _ r =>
      let host := User (ssh_host r) ++ "@" ++ Hostname (ssh_host r) ++ " | " in
      (ssh_color r ++ host ++ ResetColor, Go.len host)
  end.

Definition host_of (c : Client) : string :=
  match c with
  | Local _ _ => "localhost"
  | Remote _ r => Hostname (ssh_host r)
  end.

(** The host [down] refuses connections; the process started on [exit2]
    ends with status 2, on [exit15] with status 15, and the session to
    [lost] breaks while waiting. *)
Definition Connect (c : Client) : option error :=
  if host_of c =? "down" then Some refused else None.

Definition Wait (c : Client) (t : Task) : option error :=
  if host_of c =? "exit2" then Some (ExitError 2)
  else if host_of c =? "exit15" then Some (ExitError 15)
  else if host_of c =? "lost" then Some (ErrNew "wait: remote command exited without exit status")
  else None.

(** One task for each command, bound to the clients named by the
    command's target, with an input stream for the command [upload]. *)
Definition translate (cmd : Command) (clients : list Client) (env : string)
  : result (list Task) :=
  if cmd_name cmd =? "broken" then Err (ErrNew "unknown command")
  else if cmd_name cmd =? "upload" then
    Ok [mkTask "cat > /tmp/f" (Some "stdin") (firstn 1 clients)]
  else Ok [mkTask (cmd_name cmd) None clients].

Definition world : World := {|
  Getenv := fun v => if v =? "HOME" then "/home/u"
                     else if v =? "SSH_AUTH_SOCK" then "/run/agent.sock"
                     else "";
  user_Current := Ok "/home/u";
  filepath_Join := fun a b => a ++ "/" ++ b;
  filepath_Glob := fun _ => ["/home/u/.ssh/id_rsa"; "/home/u/.ssh/id_rsa.pub"];
  ioutil_ReadFile := ReadFile;
  ssh_ParsePrivateKey := ParsePrivateKey;
  ssh_ParsePrivateKeyWithPassphrase := ParsePrivateKeyWithPassphrase;
  agent_Signers := fun sock => if sock =? "/run/agent.sock"
                               then Some [agent_signer] else None;
  AsExport := fun _ => "";
  Colors := [green; yellow];
  bastion_Connect := fun b => if Hostname (ssh_host b) =? "down"
                              then Some refused else None;
  client_Connect := Connect;
  client_ConnectWith := fun c _ => Connect c;
  client_Prefix := Prefix;
  createTasks := translate;
  client_Run := fun _ _ => None;
  client_Wait := Wait;
  copy_Stdout := fun _ _ => None;
  copy_Stderr := fun _ _ => Some EOF;
  copy_Stdin := fun _ => Some None;
  connect_order := [0; 1; 2; 3]%nat;
  wait_order := fun _ => [1; 0; 2; 3]%nat
|}.

Definition sup : Stackup := mkStackup false true false.

Definition network (hosts : list string) (relay : option string)
  (password identity_file : string) : Network :=
  mkNetwork "prod" (map (fun h => mkHost h "") hosts)
    (option_map (fun h => mkHost h "u") relay) "u" password identity_file.

Definition start : state := mkState [mkSigner "stale-key"] [].

(** The units of a run on the hosts [localhost] and [worker1], and on a
    third host. *)
Definition local0 : Client :=
  Local 0 (mkLocalhostClient ("export SUP_HOST=" ++ dquote ++ "localhost"
                                ++ dquote ++ ";")).
Definition remote (i : nat) (host color : string) : Client :=
  Remote i (mkSSHClient "" (mkHost host "u") "" color false).
Definition worker1 : Client := remote 1 "worker1" yellow.

Definition upload (cs : list Client) : Task :=
  mkTask "cat > /tmp/f" (Some "stdin") cs.
Definition echo (cs : list Client) : Task := mkTask "echo hello" None cs.

End Example.

(** ** Notions used in the statements *)

(** [writes P m]: whatever the state and however [m] ends, [m] only appends
    events, and all of them satisfy [P]. *)
Definition writes {A} (P : event -> Prop) (m : M A) : Prop :=
  forall st, exists evs,
    events (snd (m st)) = (events st ++ evs)%list /\ Forall P evs.

(** An attempt to connect a host of the network. *)
Definition is_host_attempt (e : event) : bool :=
  match e with
  | EvConnect _ | EvConnectWith _ _ => true
  | _ => false
  end.

(** Something done for a command or a task. *)
Definition is_task_event (e : event) : bool :=
  match e with
  | EvCreateTasks _ _ | EvRun _ _ | EvCopyStdout _ _ | EvCopyStderr _ _
  | EvCopyStdin _ _ | EvWriteClose _ | EvNotify | EvSignalStop | EvWait _
  | EvStderr _ | EvStderrLine _ _ => true
  | _ => false
  end.

(** The type assertion of line 175. *)
Definition is_remote (c : Client) : bool :=
  match c with
  | Remote _ _ => true
  | Local _ _ => false
  end.

(** The identity of a client. *)
Definition addr_of (c : Client) : nat :=
  match c with
  | Local i _ | Remote i _ => i
  end.

(** [c] is the unit that the goroutine of host [i] hands over: a local
    client exporting the name of the host when line 129 takes the host for
    the local machine, a remote client otherwise. *)
Definition unit_of (env : string) (i : nat) (host : Host) (c : Client) : Prop :=
  addr_of c = i /\
  if is_localhost host
  then c = Local i (mkLocalhostClient
                      (env ++ "export SUP_HOST=" ++ dquote ++ Hostname host
                           ++ dquote ++ ";"))
  else is_remote c = true.

(** The widest visual length among the prefixes of [cs], at least [m]. *)
Definition max_prefix (w : World) (cs : list Client) (m : Z) : Z :=
  fold_left (fun m c => Z.max m (snd (client_Prefix w c))) cs m.

(** A call of [WriteClose]. *)
Definition is_write_close (e : event) : bool :=
  match e with
  | EvWriteClose _ => true
  | _ => false
  end.

(** What the goroutine of lines 244-254 writes when its copy ends. *)
Definition stdin_events (task : Task) (writers clients : list Client)
  (r : option error) : list event :=
  EvCopyStdin task writers ::
  match is_failure r with
  | Some err => [EvStderr (ErrWrap err "copying STDIN failed")]
  | None => []
  end ++ map EvWriteClose clients.

(** [Debug], [Prefix] and [IgnoreHostKey] (lines 319-329): each sets one
    flag of the receiver. *)
Definition Stackup_Debug (sup : Stackup) (value : bool) : Stackup :=
  mkStackup value (prefix sup) (ignoreHostKey sup).

Definition Stackup_Prefix (sup : Stackup) (value : bool) : Stackup :=
  mkStackup (debug sup) value (ignoreHostKey sup).

Definition Stackup_IgnoreHostKey (sup : Stackup) (value : bool) : Stackup :=
  mkStackup (debug sup) (prefix sup) value.

(** A deferred [Close]. *)
Definition is_close (e : event) : bool :=
  match e with
  | EvClose _ => true
  | _ => false
  end.

(** A call of [Run] on a client. *)
Definition is_run (e : event) : bool :=
  match e with
  | EvRun _ _ => true
  | _ => false
  end.

(** A call of [createTasks]. *)
Definition is_create_tasks (e : event) : bool :=
  match e with
  | EvCreateTasks _ _ => true
  | _ => false
  end.

(** A call of [Wait] on a client. *)
Definition is_wait (e : event) : bool :=
  match e with
  | EvWait _ => true
  | _ => false
  end.

(** The connection events of a run through the relay [b]: a local client
    is connected directly, a remote one through [b]. *)
Definition routed_through (b : SSHClient) (e : event) : Prop :=
  match e with
  | EvConnect (Local _ _) => True
  | EvConnectWith (Remote _ _) b' => b' = b
  | _ => False
  end.

(** The connection events of a run without relay: every client is connected
    directly. *)
Definition connected_directly (e : event) : Prop :=
  match e with
  | EvConnect _ => True
  | _ => False
  end.

(** * Properties *)

Unset Implicit Arguments.

(** ** [ResolvePath] *)

Lemma ResolvePath_empty (w : World) : ResolvePath w "" = Val "".
Proof. reflexivity. Qed.

Lemma slice_to_2 (a b : ascii) (s : string) :
  Go.slice_to (String a (String b s)) 2 = Val (String a (String b "")).
Proof.
  unfold Go.slice_to. simpl. destruct s; reflexivity.
Qed.

Lemma slice_from_2 (a b : ascii) (s : string) :
  Go.slice_from (String a (String b s)) 2 = Val s.
Proof.
  unfold Go.slice_from. simpl.
  replace (String.length s - 0)%nat with (String.length s) by lia.
  f_equal. induction s as [|c s IH]; simpl; [reflexivity|].
  now rewrite IH.
Qed.

(** A leading [~/] is replaced by the home directory of the current user,
    when there is one. *)
Lemma ResolvePath_home (w : World) (home rest : string) :
  user_Current w = Ok home ->
  ResolvePath w ("~/" ++ rest) = Val (filepath_Join w home rest).
Proof.
  intros Hhome.
  change ("~/" ++ rest) with (String "~" (String "/" rest)).
  unfold ResolvePath.
  replace (String "~" (String "/" rest) =? "") with false by reflexivity.
  rewrite slice_to_2. unfold obind at 1.
  replace (String "~" (String "/" "") =? "~/") with true by reflexivity.
  rewrite Hhome, slice_from_2. reflexivity.
Qed.

(** A path of two characters or more that does not start with [~/] is
    returned as it is. *)
Lemma ResolvePath_other (w : World) (a b : ascii) (s : string) :
  (String a (String b "") =? "~/") = false ->
  ResolvePath w (String a (String b s)) = Val (String a (String b s)).
Proof.
  intros Hne. unfold ResolvePath.
  replace (String a (String b s) =? "") with false by reflexivity.
  rewrite slice_to_2. unfold obind. now rewrite Hne.
Qed.

(** No path of two characters or more makes [ResolvePath] panic. *)
Lemma ResolvePath_long (w : World) (path : string) :
  String.length path <> 1%nat -> exists p, ResolvePath w path = Val p.
Proof.
  intros Hlen. destruct path as [|a [|b s]].
  - exists "". reflexivity.
  - simpl in Hlen. congruence.
  - unfold ResolvePath.
    replace (String a (String b s) =? "") with false by reflexivity.
    rewrite slice_to_2. unfold obind at 1.
    destruct (_ =? "~/"); [|eauto].
    destruct (user_Current w); [|eauto].
    rewrite slice_from_2. simpl. eauto.
Qed.

(** C10, at the input on which the source fails: the test of line 37 lets
    every one-character path through to the slice [path[:2]] of line 40,
    which is out of range, so [ResolvePath] panics there instead of
    returning the path. *)
Theorem ResolvePath_one_char_panics (w : World) (c : ascii) :
  ResolvePath w (String c "") = Panic "slice bounds out of range".
Proof. reflexivity. Qed.

(** ** Credential resolution *)

Ltac run_monad :=
  unfold bind, ret, lift, emit, get_signers, set_signers, append_signer,
    os_Exit in *;
  cbn beta iota in *.

(** [addPublicKeySigner] writes nothing: it only returns its error. *)
Lemma addPublicKeySigner_events (w : World) (file password : string)
  (st : state) :
  events (snd (addPublicKeySigner w file password st)) = events st.
Proof.
  unfold addPublicKeySigner. run_monad.
  destruct (ResolvePath w file); try reflexivity.
  destruct (ioutil_ReadFile w a); try reflexivity.
  destruct (parse_key w a0 password); reflexivity.
Qed.

(** It panics only in [ResolvePath], and never exits. *)
Lemma addPublicKeySigner_returns (w : World) (file password : string)
  (st : state) :
  String.length file <> 1%nat ->
  exists r, fst (addPublicKeySigner w file password st) = Val r.
Proof.
  intros Hlen. destruct (ResolvePath_long w _ Hlen) as [p Hp].
  unfold addPublicKeySigner. run_monad. rewrite Hp.
  destruct (ioutil_ReadFile w p) as [key|e]; [|simpl; eauto].
  destruct (parse_key w key password); simpl; eauto.
Qed.

(** When the file is read, the list grows by the parsed signer, or stays. *)
Lemma addPublicKeySigner_parsed (w : World) (file password p : string)
  (key : bytes) (st : state) :
  ResolvePath w file = Val p ->
  ioutil_ReadFile w p = Ok key ->
  addPublicKeySigner w file password st =
    match parse_key w key password with
    | Ok signer =>
        (Val None, mkState (publicKeysSigners st ++ [signer]) (events st))
    | Err err => (Val (Some err), st)
    end.
Proof.
  intros Hp Hkey. unfold addPublicKeySigner. run_monad.
  rewrite Hp, Hkey. destruct (parse_key w key password); reflexivity.
Qed.

Lemma use_agent_reachable (w : World) (agent : list Signer) (st : state) :
  agent_Signers w (Getenv w "SSH_AUTH_SOCK") = Some agent ->
  use_agent w st = (Val tt, mkState agent (events st)).
Proof. intros H. unfold use_agent. now rewrite H. Qed.

Lemma use_agent_returns (w : World) (st : state) :
  fst (use_agent w st) = Val tt /\ events (snd (use_agent w st)) = events st.
Proof.
  unfold use_agent. destruct (agent_Signers w _); split; reflexivity.
Qed.

Lemma default_keys_events (w : World) (network : Network)
  (files : list string) (st : state) :
  events (snd (default_keys w network files st)) = events st.
Proof.
  revert st. induction files as [|f files IH]; intros st; [reflexivity|].
  unfold default_keys in *. simpl forM_. unfold bind at 1.
  destruct (Go.HasSuffix f ".pub").
  - unfold ret at 1. apply IH.
  - unfold bind at 1.
    pose proof (addPublicKeySigner_events w f (Password network) st) as Hev.
    destruct (addPublicKeySigner w f (Password network) st) as [[r|m|c] st1];
      simpl in Hev; unfold ret; simpl; try assumption.
    rewrite IH. assumption.
Qed.

Lemma default_keys_returns (w : World) (network : Network)
  (files : list string) (st : state) :
  Forall (fun f => String.length f <> 1%nat) files ->
  fst (default_keys w network files st) = Val tt.
Proof.
  intros Hfiles. revert st.
  induction Hfiles as [|f files Hf _ IH]; intros st; [reflexivity|].
  unfold default_keys in *. simpl forM_. unfold bind at 1.
  destruct (Go.HasSuffix f ".pub").
  - unfold ret at 1. apply IH.
  - unfold bind at 1.
    destruct (addPublicKeySigner_returns w f (Password network) st Hf)
      as [r Hr].
    destruct (addPublicKeySigner w f (Password network) st) as [o st1].
    simpl in Hr. subst o. unfold ret at 1. apply IH.
Qed.

(** Credential resolution writes at most the warning of line 93. *)
Lemma resolve_signers_events (w : World) (network : Network) (st : state) :
  exists ws,
    events (snd (resolve_signers w network st)) = (events st ++ ws)%list /\
    (ws = [] \/
     exists err, ws = [EvWarning err (Name network) (IdentityFile network)]).
Proof.
  unfold resolve_signers. unfold bind at 1.
  destruct (use_agent_returns w st) as [Hval Hev].
  destruct (use_agent w st) as [o st1]. simpl in Hval, Hev. subst o.
  destruct (negb (IdentityFile network =? "")).
  - unfold bind at 1.
    pose proof (addPublicKeySigner_events w (IdentityFile network)
                  (Password network) st1) as Hadd.
    destruct (addPublicKeySigner w _ _ st1) as [[[e|]|m|c] st2];
      simpl in Hadd; run_monad; simpl.
    + eexists. split; [rewrite Hadd, Hev; reflexivity|]. right. now exists e.
    + exists []. rewrite app_nil_r. split; [congruence|now left].
    + exists []. rewrite app_nil_r. split; [congruence|now left].
    + exists []. rewrite app_nil_r. split; [congruence|now left].
  - exists []. rewrite app_nil_r. split; [|now left].
    fold (default_keys w network
            (filepath_Glob w (Getenv w "HOME" ++ "/.ssh/id_*"))).
    now rewrite default_keys_events.
Qed.

(** It returns unless a path of one character reaches [ResolvePath]. *)
Lemma resolve_signers_returns (w : World) (network : Network) (st : state) :
  String.length (IdentityFile network) <> 1%nat ->
  Forall (fun f => String.length f <> 1%nat)
         (filepath_Glob w (Getenv w "HOME" ++ "/.ssh/id_*")) ->
  fst (resolve_signers w network st) = Val tt.
Proof.
  intros Hid Hglob. unfold resolve_signers. unfold bind at 1.
  destruct (use_agent_returns w st) as [Hval _].
  destruct (use_agent w st) as [o st1]. simpl in Hval. subst o.
  destruct (negb (IdentityFile network =? "")).
  - unfold bind at 1.
    destruct (addPublicKeySigner_returns w _ (Password network) st1 Hid)
      as [r Hr].
    destruct (addPublicKeySigner w _ _ st1) as [o st2].
    simpl in Hr. subst o. destruct r; reflexivity.
  - now apply default_keys_returns.
Qed.

(** C4: when the agent is reachable its signers replace the list, whatever
    it held; with an identity file that can be read, a successful parse
    appends exactly that one signer to the agent's list, and a failed parse
    leaves the agent's list as it is, writes exactly one warning and lets the
    run go on. *)
Theorem credential_precedence (w : World) (network : Network)
  (prior agent : list Signer) (evs : list event) (p : string) (key : bytes) :
  agent_Signers w (Getenv w "SSH_AUTH_SOCK") = Some agent ->
  IdentityFile network <> "" ->
  ResolvePath w (IdentityFile network) = Val p ->
  ioutil_ReadFile w p = Ok key ->
  use_agent w (mkState prior evs) = (Val tt, mkState agent evs) /\
  (forall signer,
     parse_key w key (Password network) = Ok signer ->
     resolve_signers w network (mkState prior evs) =
       (Val tt, mkState (agent ++ [signer]) evs)) /\
  (forall err,
     parse_key w key (Password network) = Err err ->
     resolve_signers w network (mkState prior evs) =
       (Val tt,
        mkState agent
          (evs ++ [EvWarning err (Name network) (IdentityFile network)]))).
Proof.
  intros Hagent Hid Hp Hkey.
  apply String.eqb_neq in Hid.
  assert (Hrun : forall st, resolve_signers w network (mkState prior evs) = st ->
            st = match parse_key w key (Password network) with
                 | Ok signer => (Val tt, mkState (agent ++ [signer]) evs)
                 | Err err =>
                     (Val tt, mkState agent
                        (evs ++ [EvWarning err (Name network)
                                   (IdentityFile network)]))
                 end).
  { intros st <-. unfold resolve_signers. unfold bind at 1.
    rewrite (use_agent_reachable w agent _ Hagent). rewrite Hid.
    cbn [negb]. unfold bind at 1. cbn beta.
    rewrite (addPublicKeySigner_parsed w _ _ p key _ Hp Hkey).
    destruct (parse_key w key (Password network)); reflexivity. }
  split; [now apply use_agent_reachable|].
  split; intros x Hx; rewrite (Hrun _ eq_refl), Hx; reflexivity.
Qed.

Lemma credential_precedence_witness :
  resolve_signers Example.world
    (Example.network [] None "" "/keys/plain") Example.start =
    (Val tt, mkState [Example.agent_signer; Example.plain_signer] []) /\
  resolve_signers Example.world
    (Example.network [] None "" "/keys/garbage") Example.start =
    (Val tt,
     mkState [Example.agent_signer]
       [EvWarning (ErrNew "ssh: no key found") "prod" "/keys/garbage"]).
Proof.
  split.
  - apply (credential_precedence Example.world
             (Example.network [] None "" "/keys/plain")
             [mkSigner "stale-key"] [Example.agent_signer] []
             "/keys/plain" "PLAIN");
      try reflexivity; discriminate.
  - apply (credential_precedence Example.world
             (Example.network [] None "" "/keys/garbage")
             [mkSigner "stale-key"] [Example.agent_signer] []
             "/keys/garbage" "GARBAGE");
      try reflexivity; discriminate.
Defined.

(** C5, as the source has it: for a network whose identity file is read
    and whose key does not parse as it is, the parse is made again with the
    network's password as passphrase when that password is not empty; the
    signer of a successful second parse is appended and resolution goes on
    without a warning, and a failed second parse is the error reported. *)
Theorem passphrase_retry (w : World) (network : Network) (st : state)
  (p : string) (key : bytes) (e : error) :
  IdentityFile network <> "" ->
  ResolvePath w (IdentityFile network) = Val p ->
  ioutil_ReadFile w p = Ok key ->
  ssh_ParsePrivateKey w key = Err e ->
  Password network <> "" ->
  let base := snd (use_agent w st) in
  match ssh_ParsePrivateKeyWithPassphrase w key (Password network) with
  | Ok signer =>
      resolve_signers w network st =
        (Val tt, mkState (publicKeysSigners base ++ [signer]) (events base))
  | Err e' =>
      resolve_signers w network st =
        (Val tt,
         mkState (publicKeysSigners base)
           (events base ++ [EvWarning e' (Name network) (IdentityFile network)]))
  end.
Proof.
  intros Hid Hp Hkey Hparse Hpw base.
  apply String.eqb_neq in Hid. apply String.eqb_neq in Hpw.
  assert (Hretry : parse_key w key (Password network) =
                   ssh_ParsePrivateKeyWithPassphrase w key (Password network)).
  { unfold parse_key. now rewrite Hparse, Hpw. }
  assert (Hrun : resolve_signers w network st =
            match parse_key w key (Password network) with
            | Ok signer =>
                (Val tt, mkState (publicKeysSigners base ++ [signer])
                           (events base))
            | Err e' =>
                (Val tt, mkState (publicKeysSigners base)
                   (events base ++
                      [EvWarning e' (Name network) (IdentityFile network)]))
            end).
  { unfold resolve_signers. unfold bind at 1. subst base.
    destruct (use_agent_returns w st) as [Hval _].
    destruct (use_agent w st) as [o st1]. simpl in Hval. subst o.
    rewrite Hid. cbn [negb snd]. unfold bind at 1. cbn beta.
    rewrite (addPublicKeySigner_parsed w _ _ p key _ Hp Hkey).
    destruct (parse_key w key (Password network)); reflexivity. }
  rewrite Hrun, Hretry.
  destruct (ssh_ParsePrivateKeyWithPassphrase w key (Password network));
    reflexivity.
Qed.

Lemma passphrase_retry_witness :
  resolve_signers Example.world
    (Example.network [] None "secret" "/keys/locked") Example.start =
    (Val tt, mkState [Example.agent_signer; Example.locked_signer] []).
Proof.
  apply (passphrase_retry Example.world
           (Example.network [] None "secret" "/keys/locked") Example.start
           "/keys/locked" "LOCKED" Example.passphrase_protected);
    try reflexivity; discriminate.
Defined.

(** C5 as it is worded, without the condition on the password, fails: the
    key [OPEN] parses under the network's (empty) password, and yet no
    second parse is made and no signer is added. *)
Lemma empty_password_skips_retry :
  ~ (forall (w : World) (network : Network) (st : state) (p : string)
            (key : bytes) (e : error) (signer : Signer),
       IdentityFile network <> "" ->
       ResolvePath w (IdentityFile network) = Val p ->
       ioutil_ReadFile w p = Ok key ->
       ssh_ParsePrivateKey w key = Err e ->
       ssh_ParsePrivateKeyWithPassphrase w key (Password network) = Ok signer ->
       resolve_signers w network st =
         (Val tt,
          mkState (publicKeysSigners (snd (use_agent w st)) ++ [signer])
                  (events (snd (use_agent w st))))).
Proof.
  intros Hclaim.
  specialize (Hclaim Example.world (Example.network [] None "" "/keys/open")
                Example.start "/keys/open" "OPEN" Example.passphrase_protected
                Example.open_signer).
  assert (Hne : IdentityFile (Example.network [] None "" "/keys/open") <> "")
    by discriminate.
  specialize (Hclaim Hne eq_refl eq_refl eq_refl eq_refl).
  vm_compute in Hclaim. discriminate Hclaim.
Qed.

(** ** [Run] without commands *)

(** C9: with no command, [Run] returns its error at once: no signer is
    resolved, nothing is connected or run, and the state, the process-wide
    signer list included, is the one it was called in. *)
Theorem Run_no_commands (w : World) (sup : Stackup) (network : Network)
  (envVars : EnvList) (st : state) :
  Run w sup network envVars [] st =
    (Val (Some (ErrNew "no commands to be run")), st).
Proof. reflexivity. Qed.

(** ** What a computation writes *)

Section Writes.
Context {A B : Type} (P : event -> Prop).

Lemma writes_nothing (m : M A) :
  (forall st, events (snd (m st)) = events st) -> writes P m.
Proof.
  intros H st. exists []. rewrite app_nil_r. split; [apply H|constructor].
Qed.

Lemma writes_ret (a : A) : writes P (ret a).
Proof. now apply writes_nothing. Qed.

Lemma writes_lift (o : outcome A) : writes P (lift o).
Proof. now apply writes_nothing. Qed.

Lemma writes_os_Exit (code : Z) : writes P (@os_Exit A code).
Proof. now apply writes_nothing. Qed.

Lemma writes_emit (e : event) : P e -> writes P (emit e).
Proof.
  intros He st. exists [e]. split; [reflexivity|]. now constructor.
Qed.

Lemma writes_bind (m : M A) (k : A -> M B) :
  writes P m -> (forall a, writes P (k a)) -> writes P (bind m k).
Proof.
  intros Hm Hk st. unfold bind.
  destruct (Hm st) as [evs [Hevs HP]].
  destruct (m st) as [[a|msg|code] st1]; simpl in Hevs.
  - destruct (Hk a st1) as [evs' [Hevs' HP']].
    exists (evs ++ evs')%list. split.
    + now rewrite Hevs', Hevs, app_assoc.
    + now apply Forall_app.
  - now exists evs.
  - now exists evs.
Qed.

Lemma writes_go (m : M A) : writes P m -> writes P (go m).
Proof.
  intros Hm st. unfold go. destruct (Hm st) as [evs [Hevs HP]].
  destruct (m st) as [[a|msg|code] st1]; now exists evs.
Qed.

Lemma writes_with_deferred (deferred : list Client) (m : M A) :
  writes P m -> Forall P (map EvClose deferred) ->
  writes P (with_deferred deferred m).
Proof.
  intros Hm Hd st. unfold with_deferred.
  destruct (Hm st) as [evs [Hevs HP]].
  destruct (m st) as [[a|msg|code] st1]; simpl in *.
  - exists (evs ++ map EvClose deferred)%list.
    rewrite Hevs, app_assoc. split; [reflexivity|now apply Forall_app].
  - exists (evs ++ map EvClose deferred)%list.
    rewrite Hevs, app_assoc. split; [reflexivity|now apply Forall_app].
  - now exists evs.
Qed.
End Writes.

Lemma writes_forM_ {A} (P : event -> Prop) (l : list A) (body : A -> M unit) :
  (forall x, writes P (body x)) -> writes P (forM_ l body).
Proof.
  intros Hbody. induction l as [|x l IH]; simpl.
  - apply writes_ret.
  - apply writes_bind; [apply Hbody|intros _; apply IH].
Qed.

Lemma writes_weaken {A} (P Q : event -> Prop) (m : M A) :
  (forall e, P e -> Q e) -> writes P m -> writes Q m.
Proof.
  intros HPQ Hm st. destruct (Hm st) as [evs [Hevs HP]].
  exists evs. split; [assumption|]. eapply Forall_impl; eauto.
Qed.

(** The events of one kind among the events written. *)
Lemma writes_filter {A} (keep : event -> bool) (m : M A) (st : state) :
  writes (fun e => keep e = false) m ->
  filter keep (events (snd (m st))) = filter keep (events st).
Proof.
  intros Hm. destruct (Hm st) as [evs [Hevs HP]].
  rewrite Hevs, filter_app.
  replace (filter keep evs) with (@nil event); [now rewrite app_nil_r|].
  symmetry. clear Hevs.
  induction HP as [|e evs He _ IH]; simpl; [reflexivity|].
  now rewrite He.
Qed.

(** ** The connector *)

Lemma writes_resolve_signers (w : World) (network : Network) :
  writes (fun e => is_host_attempt e = false /\ is_task_event e = false)
         (resolve_signers w network).
Proof.
  intros st. destruct (resolve_signers_events w network st) as [ws [Hev Hws]].
  exists ws. split; [assumption|].
  destruct Hws as [->|[err ->]]; repeat constructor.
Qed.

Lemma connect_bastion_none (w : World) (sup : Stackup) (network : Network)
  (st : state) :
  Bastion network = None ->
  connect_bastion w sup network st = (Val (Ok None), st).
Proof. intros H. unfold connect_bastion. now rewrite H. Qed.

Lemma connect_bastion_some (w : World) (sup : Stackup) (network : Network)
  (b : Host) (st : state) :
  Bastion network = Some b ->
  let bastion := mkSSHClient "" b (Password network) "" (ignoreHostKey sup) in
  connect_bastion w sup network st =
    (Val match bastion_Connect w bastion with
         | Some err => Err (ErrWrap err "connecting to bastion failed")
         | None => Ok (Some bastion)
         end,
     mkState (publicKeysSigners st) (events st ++ [EvBastionConnect bastion])).
Proof.
  intros H bastion. unfold connect_bastion. rewrite H. fold bastion.
  run_monad. destruct (bastion_Connect w bastion); reflexivity.
Qed.

(** C6: when a relay is configured and connecting to it fails, [Run]
    returns that error wrapped, and between the resolution of the signers
    and the return the only thing done is the attempt on the relay: the run
    has made no attempt to connect a host. *)
Theorem relay_first (w : World) (sup : Stackup) (network : Network)
  (envVars : EnvList) (commands : list Command) (st st1 : state)
  (b : Host) (err : error) :
  commands <> [] ->
  resolve_signers w network st = (Val tt, st1) ->
  Bastion network = Some b ->
  bastion_Connect w
    (mkSSHClient "" b (Password network) "" (ignoreHostKey sup)) = Some err ->
  Run w sup network envVars commands st =
    (Val (Some (ErrWrap err "connecting to bastion failed")),
     mkState (publicKeysSigners st1)
       (events st1 ++
          [EvBastionConnect
             (mkSSHClient "" b (Password network) "" (ignoreHostKey sup))])) /\
  filter is_host_attempt (events (snd (Run w sup network envVars commands st)))
    = filter is_host_attempt (events st).
Proof.
  intros Hcmds Hsigners Hb Hfail.
  assert (Hrun : Run w sup network envVars commands st =
    (Val (Some (ErrWrap err "connecting to bastion failed")),
     mkState (publicKeysSigners st1)
       (events st1 ++
          [EvBastionConnect
             (mkSSHClient "" b (Password network) "" (ignoreHostKey sup))]))).
  { unfold Run. destruct commands as [|cmd commands]; [congruence|].
    cbn [List.length Nat.eqb]. unfold bind at 1. rewrite Hsigners.
    unfold bind at 1.
    rewrite (connect_bastion_some w sup network b st1 Hb), Hfail.
    reflexivity. }
  split; [exact Hrun|].
  rewrite Hrun. cbn [snd events]. rewrite filter_app. cbn [filter is_host_attempt].
  rewrite app_nil_r.
  pose proof (writes_filter is_host_attempt (resolve_signers w network) st) as Hw.
  rewrite Hsigners in Hw. apply Hw.
  eapply writes_weaken; [|apply writes_resolve_signers]. now intros e [He _].
Qed.

Lemma relay_first_witness :
  Run Example.world Example.sup
    (Example.network ["web1"; "web2"] (Some "down") "" "/keys/plain") []
    [mkCommand "deploy"] Example.start =
  (Val (Some (ErrWrap Example.refused "connecting to bastion failed")),
   mkState [Example.agent_signer; Example.plain_signer]
     [EvBastionConnect (mkSSHClient "" (mkHost "down" "u") "" "" false)]).
Proof.
  apply (relay_first Example.world Example.sup
           (Example.network ["web1"; "web2"] (Some "down") "" "/keys/plain") []
           [mkCommand "deploy"] Example.start
           (mkState [Example.agent_signer; Example.plain_signer] [])
           (mkHost "down" "u") Example.refused);
    [discriminate|reflexivity|reflexivity|reflexivity].
Defined.

Ltac writes_step :=
  first
    [ apply writes_ret
    | apply writes_lift
    | apply writes_os_Exit
    | apply writes_go
    | apply writes_emit; try reflexivity; try (split; reflexivity)
    | apply writes_bind; [|intros ?]
    | match goal with
      | |- writes _ (match ?x with _ => _ end) => destruct x
      end ].

Ltac writes_auto := repeat writes_step.

Lemma writes_connect_bastion (w : World) (sup : Stackup) (network : Network) :
  writes (fun e => is_task_event e = false) (connect_bastion w sup network).
Proof. unfold connect_bastion. writes_auto. Qed.

Lemma writes_host_goroutine (w : World) (sup : Stackup) (network : Network)
  (env : string) (bastion : option SSHClient) (i : nat) (host : Host) :
  writes (fun e => is_task_event e = false)
         (host_goroutine w sup network env bastion i host).
Proof. unfold host_goroutine. writes_auto. Qed.

Lemma writes_connect_loop (w : World) (sup : Stackup) (network : Network)
  (env : string) (bastion : option SSHClient) (jobs : list (nat * Host)) :
  forall clientCh errCh,
    writes (fun e => is_task_event e = false)
           (connect_loop w sup network env bastion jobs clientCh errCh).
Proof.
  induction jobs as [|[i host] jobs IH]; intros clientCh errCh; simpl.
  - apply writes_ret.
  - apply writes_bind.
    + apply writes_go, writes_host_goroutine.
    + intros [c|e]; apply IH.
Qed.

Lemma host_goroutine_unit (w : World) (sup : Stackup) (network : Network)
  (env : string) (bastion : option SSHClient) (i : nat) (host : Host)
  (st st' : state) (c : Client) :
  go (host_goroutine w sup network env bastion i host) st = (Val (Ok c), st') ->
  unit_of env i host c.
Proof.
  unfold go, host_goroutine, unit_of. destruct (is_localhost host).
  - run_monad. destruct (client_Connect w _); intros H; inversion H.
    split; reflexivity.
  - run_monad. destruct (pick_color w i); [|discriminate|discriminate].
    destruct bastion as [b|]; cbn beta iota.
    + destruct (client_ConnectWith w _ b); intros H; inversion H.
      split; reflexivity.
    + destruct (client_Connect w _); intros H; inversion H.
      split; reflexivity.
Qed.

Lemma scheduled_In {A} (order : list nat) (l : list A) (i : nat) (x : A) :
  In (i, x) (scheduled order l) -> nth_error l i = Some x.
Proof.
  unfold scheduled. rewrite in_flat_map. intros [j [_ Hj]].
  destruct (nth_error l j) as [y|] eqn:Hy; simpl in Hj; [|contradiction].
  destruct Hj as [Hj|[]]. now inversion Hj; subst.
Qed.

Lemma connect_loop_units (w : World) (sup : Stackup) (network : Network)
  (env : string) (bastion : option SSHClient) (jobs : list (nat * Host)) :
  forall clientCh errCh st clientCh' errCh' st',
    connect_loop w sup network env bastion jobs clientCh errCh st =
      (Val (clientCh', errCh'), st') ->
    forall c, In c clientCh' ->
      In c clientCh \/ exists host, In (addr_of c, host) jobs /\
                                    unit_of env (addr_of c) host c.
Proof.
  induction jobs as [|[i host] jobs IH];
    intros clientCh errCh st clientCh' errCh' st' Hloop c Hc.
  - simpl in Hloop. inversion Hloop; subst. now left.
  - simpl in Hloop. unfold bind at 1 in Hloop.
    destruct (go (host_goroutine w sup network env bastion i host) st)
      as [[[c0|e0]|msg|code] st1] eqn:Hg; try discriminate.
    + destruct (IH _ _ _ _ _ _ Hloop c Hc) as [Hin|[h [Hin Hu]]].
      * apply in_app_or in Hin. destruct Hin as [Hin | [Heq | []]]; [now left|]. subst c0.
        right. exists host.
        pose proof (host_goroutine_unit _ _ _ _ _ _ _ _ _ _ Hg) as Hu.
        destruct Hu as [Ha Hu]. rewrite Ha. split; [now left|now split].
      * right. exists h. split; [now right|assumption].
    + destruct (IH _ _ _ _ _ _ Hloop c Hc) as [Hin|[h [Hin Hu]]].
      * now left.
      * right. exists h. split; [now right|assumption].
Qed.

(** Every unit that the connector hands over was built for the host at its
    position, as line 129 classifies that host. *)
Lemma connect_hosts_units (w : World) (sup : Stackup) (network : Network)
  (env : string) (bastion : option SSHClient) (st st' : state)
  (clientCh : list Client) (errCh : list error) (c : Client) :
  connect_hosts w sup network env bastion st = (Val (clientCh, errCh), st') ->
  In c clientCh ->
  exists host, nth_error (Hosts network) (addr_of c) = Some host /\
               unit_of env (addr_of c) host c.
Proof.
  intros Hconn Hc. unfold connect_hosts in Hconn.
  destruct (connect_loop_units _ _ _ _ _ _ _ _ _ _ _ _ Hconn c Hc)
    as [[]|[host [Hin Hu]]].
  exists host. split; [|assumption]. eapply scheduled_In; eauto.
Qed.

(** C7: the goroutine of a host named [localhost], or whose name starts
    with [127.], builds a local client whose environment is the run's with
    the export of the host's name added, connects that client and no other,
    and hands it over unless connecting fails; the user, the password and
    the relay play no part.  Hence no unit that the connector hands over for
    such a host is a remote one. *)
Theorem loopback_host_is_local (w : World) (sup : Stackup)
  (network : Network) (env : string) (bastion : option SSHClient) (i : nat)
  (host : Host) :
  Hostname host = "localhost" \/ Go.HasPrefix (Hostname host) "127." = true ->
  let local := Local i (mkLocalhostClient
                 (env ++ "export SUP_HOST=" ++ dquote ++ Hostname host
                      ++ dquote ++ ";")) in
  (forall st,
     host_goroutine w sup network env bastion i host st =
       (Val match client_Connect w local with
            | Some err => Err (ErrWrap err "connecting to localhost failed")
            | None => Ok local
            end,
        mkState (publicKeysSigners st) (events st ++ [EvConnect local]))) /\
  (forall st st' clientCh errCh c,
     nth_error (Hosts network) i = Some host ->
     connect_hosts w sup network env bastion st = (Val (clientCh, errCh), st') ->
     In c clientCh -> addr_of c = i -> c = local).
Proof.
  intros Hname local.
  assert (Hlocal : is_localhost host = true).
  { unfold is_localhost. destruct Hname as [Heq|Heq]; rewrite Heq;
      [reflexivity|apply orb_true_r]. }
  split.
  - intros st. unfold host_goroutine. rewrite Hlocal. fold local. run_monad.
    destruct (client_Connect w local); reflexivity.
  - intros st st' clientCh errCh c Hnth Hconn Hc Haddr.
    destruct (connect_hosts_units _ _ _ _ _ _ _ _ _ _ Hconn Hc)
      as [h [Hh [_ Hu]]].
    rewrite Haddr in Hh, Hu. rewrite Hnth in Hh. inversion Hh; subst h.
    now rewrite Hlocal in Hu.
Qed.

Lemma loopback_host_is_local_witness :
  host_goroutine Example.world Example.sup
    (Example.network ["127.0.0.1"] (Some "relay") "pw" "") "export A=1;"
    (Some (mkSSHClient "" (mkHost "relay" "u") "pw" "" false))
    0 (mkHost "127.0.0.1" "root") Example.start =
  (Val (Ok (Local 0 (mkLocalhostClient
              ("export A=1;export SUP_HOST=" ++ dquote ++ "127.0.0.1"
                 ++ dquote ++ ";")))),
   mkState [mkSigner "stale-key"]
     [EvConnect (Local 0 (mkLocalhostClient
                  ("export A=1;export SUP_HOST=" ++ dquote ++ "127.0.0.1"
                     ++ dquote ++ ";")))]).
Proof.
  apply (loopback_host_is_local Example.world Example.sup
           (Example.network ["127.0.0.1"] (Some "relay") "pw" "") "export A=1;"
           (Some (mkSSHClient "" (mkHost "relay" "u") "pw" "" false))
           0%nat (mkHost "127.0.0.1" "root")).
  right. reflexivity.
Defined.

(** The drain keeps every client, in the order of the channel, computes the
    widest prefix and defers one [Close] for each remote client. *)
Lemma drain_spec (w : World) (clientCh : list Client) :
  forall maxLen clients deferred,
    drain w clientCh maxLen clients deferred =
      (max_prefix w clientCh maxLen, (clients ++ clientCh)%list,
       (rev (filter is_remote clientCh) ++ deferred)%list).
Proof.
  induction clientCh as [|c cs IH]; intros maxLen clients deferred; simpl.
  - now rewrite app_nil_r.
  - rewrite IH. f_equal; [f_equal|].
    + f_equal. rewrite Z.gtb_ltb.
      destruct (Z.ltb_spec maxLen (snd (client_Prefix w c))); lia.
    + now rewrite <- app_assoc.
    + destruct c; simpl; [reflexivity|]. now rewrite <- app_assoc.
Qed.

Lemma max_prefix_ge (w : World) (cs : list Client) :
  forall m, (m <= max_prefix w cs m)%Z /\
            forall c, In c cs -> (snd (client_Prefix w c) <= max_prefix w cs m)%Z.
Proof.
  induction cs as [|c0 cs IH]; intros m; simpl.
  - split; [lia|intros c []].
  - destruct (IH (Z.max m (snd (client_Prefix w c0)))) as [Hm Hcs].
    split; [lia|]. intros c [<-|Hc]; [lia|now apply Hcs].
Qed.

Lemma filter_closes (cs : list Client) :
  filter is_task_event (map EvClose cs) = [].
Proof. induction cs; simpl; auto. Qed.

(** C8: when the error channel holds an error after all the host
    goroutines have ended, [Run] returns the first error of the channel
    wrapped; after the connection attempts it does nothing but the deferred
    [Close] of each remote client that did connect, so that no command is
    translated and no task is started on any of them. *)
Theorem connector_atomicity (w : World) (sup : Stackup) (network : Network)
  (envVars : EnvList) (commands : list Command) (st st1 st2 st3 : state)
  (bastion : option SSHClient) (clientCh : list Client) (err : error)
  (errs : list error) :
  commands <> [] ->
  resolve_signers w network st = (Val tt, st1) ->
  connect_bastion w sup network st1 = (Val (Ok bastion), st2) ->
  connect_hosts w sup network (AsExport w envVars) bastion st2 =
    (Val (clientCh, err :: errs), st3) ->
  Run w sup network envVars commands st =
    (Val (Some (ErrWrap err "connecting to clients failed")),
     mkState (publicKeysSigners st3)
       (events st3 ++ map EvClose (rev (filter is_remote clientCh)))) /\
  filter is_task_event (events (snd (Run w sup network envVars commands st)))
    = filter is_task_event (events st).
Proof.
  intros Hcmds Hsigners Hbastion Hhosts.
  assert (Hrun : Run w sup network envVars commands st =
    (Val (Some (ErrWrap err "connecting to clients failed")),
     mkState (publicKeysSigners st3)
       (events st3 ++ map EvClose (rev (filter is_remote clientCh))))).
  { unfold Run. destruct commands as [|cmd commands]; [congruence|].
    cbn [List.length Nat.eqb]. unfold bind at 1. rewrite Hsigners.
    unfold bind at 1. rewrite Hbastion. unfold bind at 1. rewrite Hhosts.
    cbn [fst snd]. rewrite drain_spec, app_nil_r. reflexivity. }
  split; [exact Hrun|].
  rewrite Hrun. cbn [snd events]. rewrite filter_app.
  rewrite filter_closes, app_nil_r.
  pose proof (writes_filter is_task_event (resolve_signers w network) st) as H1.
  rewrite Hsigners in H1.
  pose proof (writes_filter is_task_event (connect_bastion w sup network) st1)
    as H2.
  rewrite Hbastion in H2.
  pose proof (writes_filter is_task_event
                (connect_hosts w sup network (AsExport w envVars) bastion) st2)
    as H3.
  rewrite Hhosts in H3. cbn [snd] in H1, H2, H3.
  rewrite H3, H2, H1; [reflexivity| | |].
  - eapply writes_weaken; [|apply writes_resolve_signers]. now intros e [_ He].
  - apply writes_connect_bastion.
  - apply writes_connect_loop.
Qed.

Lemma connector_atomicity_witness :
  Run Example.world Example.sup
    (Example.network ["web1"; "down"; "127.0.0.1"] None "" "/keys/plain") []
    [mkCommand "deploy"] Example.start =
  (Val (Some (ErrWrap (ErrWrap Example.refused "connecting to remote host failed")
                "connecting to clients failed")),
   mkState [Example.agent_signer; Example.plain_signer]
     [EvConnect (Remote 0 (mkSSHClient "" (mkHost "web1" "u") "" Example.green false));
      EvConnect (Remote 1 (mkSSHClient "" (mkHost "down" "u") "" Example.yellow false));
      EvConnect (Local 2 (mkLocalhostClient
                   ("export SUP_HOST=" ++ dquote ++ "127.0.0.1" ++ dquote ++ ";")));
      EvClose (Remote 0 (mkSSHClient "" (mkHost "web1" "u") "" Example.green false))]).
Proof.
  apply (connector_atomicity Example.world Example.sup
           (Example.network ["web1"; "down"; "127.0.0.1"] None "" "/keys/plain")
           [] [mkCommand "deploy"] Example.start
           (mkState [Example.agent_signer; Example.plain_signer] [])
           (mkState [Example.agent_signer; Example.plain_signer] [])
           (mkState [Example.agent_signer; Example.plain_signer]
              [EvConnect (Remote 0 (mkSSHClient "" (mkHost "web1" "u") ""
                                      Example.green false));
               EvConnect (Remote 1 (mkSSHClient "" (mkHost "down" "u") ""
                                      Example.yellow false));
               EvConnect (Local 2 (mkLocalhostClient
                            ("export SUP_HOST=" ++ dquote ++ "127.0.0.1"
                               ++ dquote ++ ";")))])
           None
           [Remote 0 (mkSSHClient "" (mkHost "web1" "u") "" Example.green false);
            Local 2 (mkLocalhostClient
                       ("export SUP_HOST=" ++ dquote ++ "127.0.0.1"
                          ++ dquote ++ ";"))]
           (ErrWrap Example.refused "connecting to remote host failed") []);
    [discriminate|reflexivity|reflexivity|reflexivity].
Defined.

(** An attempt that fails leaves its error on the error channel. *)
Lemma connect_loop_errors (w : World) (sup : Stackup) (network : Network)
  (env : string) (bastion : option SSHClient) (jobs : list (nat * Host)) :
  forall clientCh errCh st clientCh' errCh' st',
    connect_loop w sup network env bastion jobs clientCh errCh st =
      (Val (clientCh', errCh'), st') ->
    forall e,
      In e errCh \/
      (exists i host, In (i, host) jobs /\
         forall s, fst (host_goroutine w sup network env bastion i host s) =
                   Val (Err e)) ->
      In e errCh'.
Proof.
  induction jobs as [|[i host] jobs IH];
    intros clientCh errCh st clientCh' errCh' st' Hloop e He.
  - simpl in Hloop. inversion Hloop; subst.
    destruct He as [He|[j [h [[] _]]]]. exact He.
  - simpl in Hloop. unfold bind at 1 in Hloop.
    destruct (go (host_goroutine w sup network env bastion i host) st)
      as [[[c0|e0]|msg|code] st1] eqn:Hg; try discriminate.
    + apply (IH _ _ _ _ _ _ Hloop). destruct He as [He|[j [h [[Hj|Hj] Hh]]]].
      * now left.
      * inversion Hj; subst j h. specialize (Hh st). unfold go in Hg.
        destruct (host_goroutine w sup network env bastion i host st)
          as [o s1]. simpl in Hh. subst o. discriminate.
      * right. now exists j, h.
    + apply (IH _ _ _ _ _ _ Hloop). destruct He as [He|[j [h [[Hj|Hj] Hh]]]].
      * left. apply in_or_app. now left.
      * inversion Hj; subst j h. specialize (Hh st). unfold go in Hg.
        destruct (host_goroutine w sup network env bastion i host st)
          as [o s1]. simpl in Hh. subst o. inversion Hg; subst.
        left. apply in_or_app. right. now left.
      * right. now exists j, h.
Qed.

(** ** The run loop *)

(** The prefix is padded only when its length in bytes is below [maxLen]. *)
Lemma padded_prefix_short (w : World) (sup : Stackup) (maxLen : Z) (c : Client) :
  prefix sup = true ->
  (Go.len (fst (client_Prefix w c)) < maxLen)%Z ->
  (snd (client_Prefix w c) <= maxLen)%Z ->
  padded_prefix w sup maxLen c =
    Val (Go.repeat_string " " (Z.to_nat (maxLen - snd (client_Prefix w c)))
           ++ fst (client_Prefix w c)).
Proof.
  intros Hp Hlen Hvis. unfold padded_prefix. rewrite Hp.
  destruct (Z.ltb_spec (Go.len (fst (client_Prefix w c))) maxLen); [|lia].
  unfold Go.Repeat.
  destruct (Z.ltb_spec (maxLen - snd (client_Prefix w c)) 0); [lia|].
  reflexivity.
Qed.

Lemma padded_prefix_long (w : World) (sup : Stackup) (maxLen : Z) (c : Client) :
  prefix sup = true ->
  (maxLen <= Go.len (fst (client_Prefix w c)))%Z ->
  padded_prefix w sup maxLen c = Val (fst (client_Prefix w c)).
Proof.
  intros Hp Hlen. unfold padded_prefix. rewrite Hp.
  destruct (Z.ltb_spec (Go.len (fst (client_Prefix w c))) maxLen); [lia|].
  reflexivity.
Qed.

Lemma writes_start_units (w : World) (sup : Stackup) (maxLen : Z) (task : Task)
  (cs : list Client) :
  forall writers,
    writes (fun e => is_write_close e = false)
           (start_units w sup maxLen task cs writers).
Proof.
  induction cs as [|c cs IH]; intros writers; simpl.
  - apply writes_ret.
  - unfold stdout_goroutine, stderr_goroutine. writes_auto; apply IH.
Qed.

(** A task started on all its clients computed a prefix for each of them. *)
Lemma start_units_prefixes (w : World) (sup : Stackup) (maxLen : Z)
  (task : Task) (cs : list Client) :
  forall writers st writers' st',
    start_units w sup maxLen task cs writers st = (Val (Ok writers'), st') ->
    forall c, In c cs -> exists pfx, padded_prefix w sup maxLen c = Val pfx.
Proof.
  induction cs as [|c0 cs IH]; intros writers st writers' st' Hstart c Hc.
  - destruct Hc.
  - simpl in Hstart. unfold bind at 1, lift at 1 in Hstart.
    destruct (padded_prefix w sup maxLen c0) as [pfx| |] eqn:Hp;
      try discriminate.
    destruct Hc as [Heq|Hc]; [subst c0; eauto|].
    unfold bind at 1, emit at 1 in Hstart.
    destruct (client_Run w c0 task); [discriminate|].
    unfold bind at 1 in Hstart.
    destruct (go (stdout_goroutine w task c0 pfx) _) as [[[]| |] s1];
      try discriminate.
    unfold bind at 1 in Hstart.
    destruct (go (stderr_goroutine w task c0 pfx) _) as [[[]| |] s2];
      try discriminate.
    eapply IH; eauto.
Qed.

Lemma forM_emit {A} (f : A -> event) (l : list A) (st : state) :
  forM_ l (fun x => emit (f x)) st =
    (Val tt, mkState (publicKeysSigners st) (events st ++ map f l)).
Proof.
  revert st. induction l as [|x l IH]; intros st; simpl.
  - rewrite app_nil_r. now destruct st.
  - unfold bind, emit at 1. rewrite IH. simpl. now rewrite <- app_assoc.
Qed.

Lemma stdin_goroutine_ended (w : World) (clients : list Client) (task : Task)
  (writers : list Client) (input : string) (r : option error) (st : state) :
  Input task = Some input ->
  copy_Stdin w task = Some r ->
  go (stdin_goroutine w clients task writers) st =
    (Val tt, mkState (publicKeysSigners st)
               (events st ++ stdin_events task writers clients r)).
Proof.
  intros Hin Hcopy. unfold go, stdin_goroutine, stdin_events.
  rewrite Hin, Hcopy. unfold bind at 1, emit at 1. unfold bind at 1.
  destruct (is_failure r) as [err|].
  - unfold emit at 1. rewrite forM_emit. simpl.
    now rewrite <- !app_assoc.
  - unfold ret at 1. rewrite forM_emit. simpl. now rewrite <- !app_assoc.
Qed.

Lemma stdin_goroutine_returns (w : World) (clients : list Client) (task : Task)
  (writers : list Client) (st : state) :
  fst (go (stdin_goroutine w clients task writers) st) = Val tt.
Proof.
  unfold go, stdin_goroutine. destruct (Input task); [|reflexivity].
  unfold bind at 1, emit at 1. destruct (copy_Stdin w task) as [r|];
    [|reflexivity].
  unfold bind at 1. destruct (is_failure r).
  - unfold emit at 1. now rewrite forM_emit.
  - unfold ret at 1. now rewrite forM_emit.
Qed.

Lemma writes_wait_phase (w : World) (sup : Stackup) (maxLen : Z) (task : Task) :
  writes (fun e => is_write_close e = false) (wait_phase w sup maxLen task).
Proof.
  unfold wait_phase. apply writes_forM_. intros c.
  unfold wait_goroutine. writes_auto.
Qed.

(** C3: when a task with an input stream has been started on its clients
    and the copy of that stream ends, with or without an error, the task
    calls [WriteClose] once on each client of the run, in the order of the
    connected set [clients] that [Run] passes down, whatever the clients of
    the task are, and on nothing else. *)
Theorem stdin_closes_every_unit (w : World) (sup : Stackup) (maxLen : Z)
  (clients : list Client) (task : Task) (st st1 : state)
  (writers : list Client) (input : string) (r : option error) :
  Input task = Some input ->
  copy_Stdin w task = Some r ->
  start_units w sup maxLen task (Clients task) [] st = (Val (Ok writers), st1) ->
  filter is_write_close
    (events (snd (run_task w sup maxLen clients task st))) =
  (filter is_write_close (events st) ++ map EvWriteClose clients)%list.
Proof.
  intros Hin Hcopy Hstart.
  pose proof (writes_filter is_write_close
                (start_units w sup maxLen task (Clients task) []) st
                (writes_start_units w sup maxLen task (Clients task) []))
    as Hbefore.
  rewrite Hstart in Hbefore. cbn [snd] in Hbefore.
  set (rest := emit EvNotify ;;; wait_phase w sup maxLen task ;;;
              emit EvSignalStop ;;; ret (@None error)).
  set (st2 := mkState (publicKeysSigners st1)
                (events st1 ++ stdin_events task writers clients r)).
  assert (Hrun : run_task w sup maxLen clients task st = rest st2).
  { unfold run_task. unfold bind at 1. rewrite Hstart. unfold bind at 1.
    rewrite (stdin_goroutine_ended w clients task writers input r st1 Hin Hcopy).
    reflexivity. }
  assert (Hrest : writes (fun e => is_write_close e = false) rest).
  { unfold rest. writes_auto. apply writes_wait_phase. }
  rewrite Hrun, (writes_filter is_write_close rest st2 Hrest).
  unfold st2, stdin_events. cbn [events]. rewrite filter_app.
  rewrite Hbefore. f_equal. cbn [filter is_write_close].
  rewrite filter_app.
  replace (filter is_write_close match is_failure r with
                                 | Some err => _
                                 | None => []
                                 end) with (@nil event)
    by (destruct (is_failure r); reflexivity).
  cbn [app]. clear. induction clients as [|c cs IH]; simpl; [reflexivity|].
  now rewrite IH.
Qed.

Lemma stdin_closes_every_unit_witness :
  filter is_write_close
    (events (snd (run_task Example.world Example.sup 14
                    [Example.local0; Example.worker1]
                    (Example.upload [Example.local0]) Example.start))) =
  [EvWriteClose Example.local0; EvWriteClose Example.worker1].
Proof.
  apply (stdin_closes_every_unit Example.world Example.sup 14
           [Example.local0; Example.worker1]
           (Example.upload [Example.local0]) Example.start
           (snd (start_units Example.world Example.sup 14
                   (Example.upload [Example.local0]) [Example.local0] []
                   Example.start))
           [Example.local0] "stdin" None);
    reflexivity.
Defined.

(** ** Waiting for the units *)

(** The goroutine of a unit whose [Wait] fails ends the process: with the
    status of an exit error other than 15, with 1 otherwise. *)
Lemma wait_goroutine_exits (w : World) (sup : Stackup) (maxLen : Z)
  (task : Task) (c : Client) (err : error) (pfx : string) (st : state) :
  padded_prefix w sup maxLen c = Val pfx ->
  client_Wait w c task = Some err ->
  go (wait_goroutine w sup maxLen task c) st =
    (Exit match as_ExitError err with
          | Some status => if (status =? 15)%Z then 1%Z else status
          | None => 1%Z
          end,
     mkState (publicKeysSigners st)
       (events st ++ [EvWait c; EvStderrLine pfx err])).
Proof.
  intros Hp Hwait. unfold go, wait_goroutine. run_monad.
  rewrite Hwait, Hp. cbn iota beta.
  destruct (as_ExitError err) as [status|]; cbn iota beta.
  - destruct (status =? 15)%Z; cbn [negb publicKeysSigners events];
      now rewrite <- app_assoc.
  - cbn [publicKeysSigners events]. now rewrite <- app_assoc.
Qed.

Lemma wait_goroutine_done (w : World) (sup : Stackup) (maxLen : Z)
  (task : Task) (c : Client) (st : state) :
  client_Wait w c task = None ->
  go (wait_goroutine w sup maxLen task c) st =
    (Val tt, mkState (publicKeysSigners st) (events st ++ [EvWait c])).
Proof.
  intros Hwait. unfold go, wait_goroutine. run_monad. now rewrite Hwait.
Qed.

(** The first goroutine whose [Wait] fails decides how the process ends. *)
Lemma wait_first_failure (w : World) (sup : Stackup) (maxLen : Z)
  (task : Task) (c : Client) (err : error) (pfx : string)
  (after before : list Client) :
  padded_prefix w sup maxLen c = Val pfx ->
  client_Wait w c task = Some err ->
  Forall (fun c' => client_Wait w c' task = None) before ->
  forall st,
    fst (forM_ (before ++ c :: after)
           (fun c => go (wait_goroutine w sup maxLen task c)) st) =
    Exit match as_ExitError err with
         | Some status => if (status =? 15)%Z then 1%Z else status
         | None => 1%Z
         end.
Proof.
  intros Hp Hwait Hbefore.
  induction Hbefore as [|c' before Hc' _ IH]; intros st; simpl.
  - unfold bind. now rewrite (wait_goroutine_exits w sup maxLen task c err pfx).
  - unfold bind at 1. rewrite (wait_goroutine_done w sup maxLen task c' st Hc').
    apply IH.
Qed.

Lemma scheduled_incl {A} (order : list nat) (l : list A) (x : A) :
  In x (map snd (scheduled order l)) -> In x l.
Proof.
  rewrite in_map_iff. intros [[i y] [Hy Hin]]. simpl in Hy. subst y.
  apply scheduled_In in Hin. eapply nth_error_In; eauto.
Qed.

(** C1: in a task started on all its clients, let [c] be the first client,
    in the order in which the waiting goroutines end, whose [Wait] reports
    a failure.  The process then exits: with the remote exit status when the
    failure is an exit error whose status is not 15, with 1 when that status
    is 15, and with 1 when the failure is not an exit error. *)
Theorem fail_fast_exit_code (w : World) (sup : Stackup) (maxLen : Z)
  (clients : list Client) (task : Task) (st st1 : state)
  (writers before after : list Client) (c : Client) (err : error) :
  start_units w sup maxLen task (Clients task) [] st = (Val (Ok writers), st1) ->
  map snd (scheduled (wait_order w task) (Clients task)) = (before ++ c :: after)%list ->
  Forall (fun c' => client_Wait w c' task = None) before ->
  client_Wait w c task = Some err ->
  (forall status, err = ExitError status -> status <> 15%Z ->
     fst (run_task w sup maxLen clients task st) = Exit status) /\
  (err = ExitError 15 ->
     fst (run_task w sup maxLen clients task st) = Exit 1%Z) /\
  (as_ExitError err = None ->
     fst (run_task w sup maxLen clients task st) = Exit 1%Z).
Proof.
  intros Hstart Horder Hbefore Hwait.
  assert (Hc : In c (Clients task)).
  { apply (scheduled_incl (wait_order w task)). rewrite Horder.
    apply in_or_app. right. now left. }
  destruct (start_units_prefixes w sup maxLen task _ _ _ _ _ Hstart c Hc)
    as [pfx Hp].
  assert (Hrun : fst (run_task w sup maxLen clients task st) =
                 Exit match as_ExitError err with
                      | Some status => if (status =? 15)%Z then 1%Z else status
                      | None => 1%Z
                      end).
  { unfold run_task. unfold bind at 1. rewrite Hstart. unfold bind at 1.
    pose proof (stdin_goroutine_returns w clients task writers st1) as Hin.
    destruct (go (stdin_goroutine w clients task writers) st1) as [o st2].
    simpl in Hin. subst o. unfold bind at 1, emit at 1. unfold bind at 1.
    unfold wait_phase. rewrite Horder.
    pose proof (wait_first_failure w sup maxLen task c err pfx after before
                  Hp Hwait Hbefore
                  (mkState (publicKeysSigners st2) (events st2 ++ [EvNotify])))
      as Hexit.
    destruct (forM_ _ _ _) as [o st3]. simpl in Hexit. now subst o. }
  rewrite Hrun. repeat split.
  - intros status Herr Hne. subst err. simpl.
    destruct (Z.eqb_spec status 15); [contradiction|reflexivity].
  - intros Herr. subst err. reflexivity.
  - intros Hnone. now rewrite Hnone.
Qed.

Lemma fail_fast_exit_code_witness :
  fst (run_task Example.world Example.sup 14
         [Example.local0; Example.remote 1 "exit2" Example.yellow;
          Example.remote 2 "exit15" Example.green]
         (Example.echo
            [Example.local0; Example.remote 1 "exit2" Example.yellow;
             Example.remote 2 "exit15" Example.green])
         Example.start) = Exit 2%Z.
Proof.
  refine (proj1
            (fail_fast_exit_code Example.world Example.sup 14
               [Example.local0; Example.remote 1 "exit2" Example.yellow;
                Example.remote 2 "exit15" Example.green]
               (Example.echo
                  [Example.local0; Example.remote 1 "exit2" Example.yellow;
                   Example.remote 2 "exit15" Example.green])
               Example.start
               (snd (start_units Example.world Example.sup 14
                       (Example.echo
                          [Example.local0;
                           Example.remote 1 "exit2" Example.yellow;
                           Example.remote 2 "exit15" Example.green])
                       [Example.local0;
                        Example.remote 1 "exit2" Example.yellow;
                        Example.remote 2 "exit15" Example.green] []
                       Example.start))
               [Example.local0; Example.remote 1 "exit2" Example.yellow;
                Example.remote 2 "exit15" Example.green]
               []
               [Example.local0; Example.remote 2 "exit15" Example.green]
               (Example.remote 1 "exit2" Example.yellow) (ExitError 2)
               _ _ _ _)
            2%Z eq_refl _).
  - reflexivity.
  - reflexivity.
  - constructor.
  - reflexivity.
  - discriminate.
Defined.

(** ** The units of a run are distinct *)

Lemma scheduled_positions {A} (order : list nat) (l : list A) (i : nat) :
  In i (map fst (scheduled order l)) -> In i order.
Proof.
  induction order as [|j order IH]; simpl; [tauto|].
  unfold scheduled in *. simpl. rewrite map_app, in_app_iff.
  intros [Hj|Hi]; [|right; now apply IH].
  destruct (nth_error l j); simpl in Hj; [|contradiction].
  destruct Hj as [Hj|[]]. now left.
Qed.

Lemma scheduled_NoDup {A} (order : list nat) (l : list A) :
  NoDup order -> NoDup (map fst (scheduled order l)).
Proof.
  induction 1 as [|j order Hj _ IH]; [constructor|].
  unfold scheduled in *. simpl. rewrite map_app.
  destruct (nth_error l j); simpl; [|exact IH].
  constructor; [|exact IH]. intros Hin. apply Hj.
  now apply (scheduled_positions order l).
Qed.

Lemma connect_loop_NoDup (w : World) (sup : Stackup) (network : Network)
  (env : string) (bastion : option SSHClient) (jobs : list (nat * Host)) :
  forall clientCh errCh st clientCh' errCh' st',
    connect_loop w sup network env bastion jobs clientCh errCh st =
      (Val (clientCh', errCh'), st') ->
    NoDup (map addr_of clientCh ++ map fst jobs) ->
    NoDup (map addr_of clientCh').
Proof.
  induction jobs as [|[i host] jobs IH];
    intros clientCh errCh st clientCh' errCh' st' Hloop Hnd.
  - simpl in Hloop. inversion Hloop; subst.
    simpl in Hnd. now rewrite app_nil_r in Hnd.
  - simpl in Hloop. unfold bind at 1 in Hloop.
    destruct (go (host_goroutine w sup network env bastion i host) st)
      as [[[c0|e0]|msg|code] st1] eqn:Hg; try discriminate.
    + apply (IH _ _ _ _ _ _ Hloop).
      destruct (host_goroutine_unit _ _ _ _ _ _ _ _ _ _ Hg) as [Ha _].
      rewrite map_app, <- app_assoc. simpl. now rewrite Ha.
    + apply (IH _ _ _ _ _ _ Hloop). simpl in Hnd.
      now apply NoDup_remove_1 in Hnd.
Qed.

(** When no position is scheduled twice, no unit is handed over twice. *)
Lemma connected_units_distinct (w : World) (sup : Stackup) (network : Network)
  (env : string) (bastion : option SSHClient) (st st' : state)
  (clientCh : list Client) (errCh : list error) :
  NoDup (connect_order w) ->
  connect_hosts w sup network env bastion st = (Val (clientCh, errCh), st') ->
  NoDup clientCh.
Proof.
  intros Horder Hconn. unfold connect_hosts in Hconn.
  apply (NoDup_map_inv addr_of).
  apply (connect_loop_NoDup _ _ _ _ _ _ _ _ _ _ _ _ Hconn).
  simpl. now apply scheduled_NoDup.
Qed.

(** ** The prefixes written *)

(** C2, at an input on which the source fails.  Line 207 compares the
    length in bytes of the prefix, colour sequences included, with the widest
    visual length, while line 208 pads by the visual length.  In a run on
    [localhost] and [worker1] the widest visual length is 14 and that of the
    prefix of [worker1] is 12, but its 21 bytes are not below 14: the prefix
    is written as it is, two columns short, on the copy of the unit's
    standard output. *)
Theorem colored_prefix_not_padded :
  max_prefix Example.world [Example.local0; Example.worker1] 0 = 14%Z /\
  snd (client_Prefix Example.world Example.worker1) = 12%Z /\
  Go.len (fst (client_Prefix Example.world Example.worker1)) = 21%Z /\
  padded_prefix Example.world Example.sup 14 Example.worker1 =
    Val (fst (client_Prefix Example.world Example.worker1)) /\
  In (EvCopyStdout Example.worker1
        (fst (client_Prefix Example.world Example.worker1)))
     (events (snd (Run Example.world Example.sup
                     (Example.network ["localhost"; "worker1"] None "" "") []
                     [mkCommand "echo hello"] Example.start))).
Proof.
  repeat split; try reflexivity.
  vm_compute. tauto.
Qed.

(** * Further properties of the code *)

(** ** Strings *)

Lemma string_length_app (s t : string) :
  String.length (s ++ t) = (String.length s + String.length t)%nat.
Proof. induction s as [|a s IH]; simpl; [reflexivity|now rewrite IH]. Qed.

Lemma substring_all (s : string) : substring 0 (String.length s) s = s.
Proof. induction s as [|a s IH]; simpl; [reflexivity|now rewrite IH]. Qed.

Lemma substring_skip (s t : string) (n : nat) :
  substring (String.length s) n (s ++ t) = substring 0 n t.
Proof. induction s as [|a s IH]; simpl; [reflexivity|exact IH]. Qed.

Lemma HasSuffix_app (s suffix : string) :
  Go.HasSuffix (s ++ suffix) suffix = true.
Proof.
  unfold Go.HasSuffix. rewrite string_length_app.
  replace (String.length s + String.length suffix - String.length suffix)%nat
    with (String.length s) by lia.
  rewrite substring_skip, substring_all, String.eqb_refl, andb_true_r.
  apply Nat.leb_le. lia.
Qed.

Lemma HasPrefix_tilde (a b : ascii) (s : string) :
  Go.HasPrefix (String a (String b s)) "~/" = (String a (String b "") =? "~/").
Proof.
  assert (Hnil : forall t, String.prefix "" t = true)
    by (intros [|c t]; reflexivity).
  unfold Go.HasPrefix. cbn [String.prefix String.eqb]. rewrite Hnil.
  destruct (ascii_dec "~" a) as [Ha|Ha], (Ascii.eqb_spec a "~") as [Ha'|Ha'];
    try congruence.
  destruct (ascii_dec "/" b) as [Hb|Hb], (Ascii.eqb_spec b "/") as [Hb'|Hb'];
    congruence.
Qed.

(** ** [ResolvePath] *)

(** X1: [ResolvePath] returns a path for every input whose length is not
    one, whatever [user.Current] and [filepath.Join] answer: the slices of
    lines 40 and 43 are in range. *)
Theorem ResolvePath_returns (w : World) (path : string) :
  String.length path <> 1%nat -> exists p, ResolvePath w path = Val p.
Proof. apply ResolvePath_long. Qed.

Lemma ResolvePath_returns_witness :
  exists p, ResolvePath Example.world "~/.ssh/deploy" = Val p.
Proof.
  apply (ResolvePath_returns Example.world "~/.ssh/deploy"). simpl. lia.
Defined.

(** X2: a path that starts with [~/] becomes the join of the home
    directory of the current user and the rest of the path; when the current
    user cannot be found (line 42), the path is returned as it is, tilde
    included. *)
Theorem ResolvePath_tilde (w : World) (rest : string) :
  ResolvePath w ("~/" ++ rest) =
    Val match user_Current w with
        | Ok homeDir => filepath_Join w homeDir rest
        | Err _ => "~/" ++ rest
        end.
Proof.
  destruct (user_Current w) as [home|e] eqn:Hu.
  - now apply ResolvePath_home.
  - change ("~/" ++ rest) with (String "~" (String "/" rest)).
    unfold ResolvePath.
    replace (String "~" (String "/" rest) =? "") with false by reflexivity.
    rewrite slice_to_2. unfold obind.
    replace (String "~" (String "/" "") =? "~/") with true by reflexivity.
    now rewrite Hu.
Qed.

(** X3: a path of two characters or more that does not start with [~/] is
    returned unchanged; in particular [~user/...] is not expanded. *)
Theorem ResolvePath_unchanged (w : World) (path : string) :
  (2 <= String.length path)%nat ->
  Go.HasPrefix path "~/" = false ->
  ResolvePath w path = Val path.
Proof.
  intros Hlen Hpre. destruct path as [|a [|b s]]; simpl in Hlen; try lia.
  apply ResolvePath_other. now rewrite <- (HasPrefix_tilde a b s).
Qed.

Lemma ResolvePath_unchanged_witness :
  ResolvePath Example.world "~deploy/.ssh/id_rsa" = Val "~deploy/.ssh/id_rsa".
Proof.
  apply (ResolvePath_unchanged Example.world "~deploy/.ssh/id_rsa").
  - simpl. lia.
  - reflexivity.
Defined.

(** ** [addPublicKeySigner] and credential resolution *)

Lemma addPublicKeySigner_signers (w : World) (file password : string)
  (st : state) :
  (fst (addPublicKeySigner w file password st) = Val None /\
   exists signer,
     publicKeysSigners (snd (addPublicKeySigner w file password st)) =
       (publicKeysSigners st ++ [signer])%list) \/
  (fst (addPublicKeySigner w file password st) <> Val None /\
   publicKeysSigners (snd (addPublicKeySigner w file password st)) =
     publicKeysSigners st).
Proof.
  unfold addPublicKeySigner. run_monad.
  destruct (ResolvePath w file) as [p| |]; simpl;
    try (right; split; [discriminate|reflexivity]).
  destruct (ioutil_ReadFile w p) as [key|e]; simpl;
    try (right; split; [discriminate|reflexivity]).
  destruct (parse_key w key password) as [signer|e]; simpl.
  - left. split; [reflexivity|now exists signer].
  - right. split; [discriminate|reflexivity].
Qed.

(** X4: [addPublicKeySigner] returns [nil] exactly when it has appended
    one signer at the end of the list; in every other case (the path makes
    [ResolvePath] panic, the file cannot be read, the key does not parse) the
    list is the one it was.  It writes nothing in either case. *)
Theorem addPublicKeySigner_appends_at_most_one (w : World)
  (file password : string) (st : state) :
  events (snd (addPublicKeySigner w file password st)) = events st /\
  ((fst (addPublicKeySigner w file password st) = Val None /\
    exists signer,
      publicKeysSigners (snd (addPublicKeySigner w file password st)) =
        (publicKeysSigners st ++ [signer])%list) \/
   (fst (addPublicKeySigner w file password st) <> Val None /\
    publicKeysSigners (snd (addPublicKeySigner w file password st)) =
      publicKeysSigners st)).
Proof.
  split; [apply addPublicKeySigner_events|apply addPublicKeySigner_signers].
Qed.

(** X5: an identity file that cannot be read is not fatal either: the
    error of [ioutil.ReadFile] is the one of the warning, no key is parsed,
    the signer list is the one left by the agent step, and resolution
    returns. *)
Theorem unreadable_identity_file (w : World) (network : Network) (st : state)
  (p : string) (e : error) :
  IdentityFile network <> "" ->
  ResolvePath w (IdentityFile network) = Val p ->
  ioutil_ReadFile w p = Err e ->
  resolve_signers w network st =
    (Val tt,
     mkState (publicKeysSigners (snd (use_agent w st)))
       (events (snd (use_agent w st)) ++
          [EvWarning e (Name network) (IdentityFile network)])).
Proof.
  intros Hid Hp Hread. apply String.eqb_neq in Hid.
  unfold resolve_signers. unfold bind at 1.
  destruct (use_agent_returns w st) as [Hval _].
  destruct (use_agent w st) as [o st1]. simpl in Hval. subst o.
  rewrite Hid. cbn [negb snd]. unfold bind at 1. cbn beta.
  unfold addPublicKeySigner. run_monad. now rewrite Hp, Hread.
Qed.

Lemma unreadable_identity_file_witness :
  resolve_signers Example.world
    (Example.network [] None "" "/keys/missing") Example.start =
  (Val tt,
   mkState [Example.agent_signer]
     [EvWarning Example.no_such_file "prod" "/keys/missing"]).
Proof.
  apply (unreadable_identity_file Example.world
           (Example.network [] None "" "/keys/missing") Example.start
           "/keys/missing" Example.no_such_file);
    [discriminate|reflexivity|reflexivity].
Defined.

(** X6: the default identity files whose name ends in [.pub] are skipped
    before anything is done with them: a list of such files leaves the state
    as it is, and cannot make the loop panic. *)
Theorem public_keys_are_skipped (w : World) (network : Network)
  (files : list string) (st : state) :
  Forall (fun f => exists stem, f = stem ++ ".pub") files ->
  default_keys w network files st = (Val tt, st).
Proof.
  intros Hfiles. revert st.
  induction Hfiles as [|f files [stem Hf] _ IH]; intros st; [reflexivity|].
  unfold default_keys in *. simpl forM_. unfold bind at 1.
  subst f. rewrite HasSuffix_app. unfold ret at 1. apply IH.
Qed.

Lemma public_keys_are_skipped_witness :
  default_keys Example.world (Example.network [] None "" "")
    ["/home/u/.ssh/id_rsa.pub"; "x.pub"; ".pub"] Example.start =
  (Val tt, Example.start).
Proof.
  apply (public_keys_are_skipped Example.world
           (Example.network [] None "" "")
           ["/home/u/.ssh/id_rsa.pub"; "x.pub"; ".pub"] Example.start).
  repeat constructor.
  - now exists "/home/u/.ssh/id_rsa".
  - now exists "x".
  - now exists "".
Defined.

(** X7: without an explicit identity file, credential resolution writes
    nothing: the failures of the default identity files are dropped. *)
Theorem default_discovery_is_silent (w : World) (network : Network)
  (st : state) :
  IdentityFile network = "" ->
  events (snd (resolve_signers w network st)) = events st.
Proof.
  intros Hid. unfold resolve_signers. unfold bind at 1.
  destruct (use_agent_returns w st) as [Hval Hev].
  destruct (use_agent w st) as [o st1]. simpl in Hval, Hev. subst o.
  rewrite Hid. cbn [String.eqb negb].
  now rewrite default_keys_events.
Qed.

Lemma default_discovery_is_silent_witness :
  events (snd (resolve_signers Example.world
                 (Example.network [] None "" "") Example.start)) = [].
Proof.
  apply (default_discovery_is_silent Example.world
           (Example.network [] None "" "") Example.start).
  reflexivity.
Defined.

Lemma default_keys_signers (w : World) (network : Network)
  (files : list string) :
  forall st, exists added,
    publicKeysSigners (snd (default_keys w network files st)) =
      (publicKeysSigners st ++ added)%list.
Proof.
  induction files as [|f files IH]; intros st.
  - exists []. simpl. now rewrite app_nil_r.
  - unfold default_keys in *. simpl forM_. unfold bind at 1.
    destruct (Go.HasSuffix f ".pub").
    + unfold ret at 1. apply IH.
    + unfold bind at 1.
      pose proof (addPublicKeySigner_signers w f (Password network) st) as Hs.
      destruct (addPublicKeySigner w f (Password network) st)
        as [[r|m|c] st1]; simpl in Hs.
      * unfold ret at 1. destruct (IH st1) as [added Hadd].
        destruct Hs as [[_ [signer Hs]]|[_ Hs]]; rewrite Hadd, Hs.
        -- exists (signer :: added). now rewrite <- app_assoc.
        -- now exists added.
      * exists []. rewrite app_nil_r.
        destruct Hs as [[Hr _]|[_ Hs]]; [discriminate|exact Hs].
      * exists []. rewrite app_nil_r.
        destruct Hs as [[Hr _]|[_ Hs]]; [discriminate|exact Hs].
Qed.

(** X8: credential resolution only ever extends its base list: the agent's
    signers when the agent is reachable, and otherwise the signers already
    in the package variable, which therefore pile up from one run to the next
    in the same process. *)
Theorem signers_accumulate (w : World) (network : Network) (st : state) :
  exists added,
    publicKeysSigners (snd (resolve_signers w network st)) =
      (match agent_Signers w (Getenv w "SSH_AUTH_SOCK") with
       | Some agent => agent
       | None => publicKeysSigners st
       end ++ added)%list.
Proof.
  unfold resolve_signers. unfold bind at 1. unfold use_agent.
  set (base := match agent_Signers w (Getenv w "SSH_AUTH_SOCK") with
               | Some agent => agent
               | None => publicKeysSigners st
               end).
  assert (Hbase : exists st1,
            match agent_Signers w (Getenv w "SSH_AUTH_SOCK") with
            | Some signers => set_signers signers
            | None => ret tt
            end st = (Val tt, st1) /\ publicKeysSigners st1 = base).
  { unfold base. destruct (agent_Signers w _); eexists; split; reflexivity. }
  destruct Hbase as [st1 [-> Hbase]].
  destruct (negb (IdentityFile network =? "")).
  - unfold bind at 1.
    pose proof (addPublicKeySigner_signers w (IdentityFile network)
                  (Password network) st1) as Hs.
    destruct (addPublicKeySigner w _ _ st1) as [[[e|]|m|c] st2];
      simpl in Hs; run_monad; simpl.
    + exists []. rewrite app_nil_r, <- Hbase.
      destruct Hs as [[Hr _]|[_ Hs]]; [discriminate|exact Hs].
    + destruct Hs as [[_ [signer Hs]]|[Hr _]]; [|congruence].
      exists [signer]. now rewrite <- Hbase.
    + exists []. rewrite app_nil_r, <- Hbase.
      destruct Hs as [[Hr _]|[_ Hs]]; [discriminate|exact Hs].
    + exists []. rewrite app_nil_r, <- Hbase.
      destruct Hs as [[Hr _]|[_ Hs]]; [discriminate|exact Hs].
  - rewrite <- Hbase. apply default_keys_signers.
Qed.

(** X9: credential resolution returns, whatever the files hold and whatever
    the agent answers, as long as neither the identity file nor a default
    identity file has a name of exactly one character. *)
Theorem credential_resolution_returns (w : World) (network : Network)
  (st : state) :
  String.length (IdentityFile network) <> 1%nat ->
  Forall (fun f => String.length f <> 1%nat)
         (filepath_Glob w (Getenv w "HOME" ++ "/.ssh/id_*")) ->
  fst (resolve_signers w network st) = Val tt.
Proof. apply resolve_signers_returns. Qed.

Lemma credential_resolution_returns_witness :
  fst (resolve_signers Example.world
         (Example.network [] None "" "/keys/garbage") Example.start) = Val tt.
Proof.
  apply (credential_resolution_returns Example.world
           (Example.network [] None "" "/keys/garbage") Example.start).
  - simpl. lia.
  - repeat constructor; simpl; lia.
Defined.

(** ** The connector *)

Lemma connect_loop_sent (w : World) (sup : Stackup) (network : Network)
  (env : string) (bastion : option SSHClient) (jobs : list (nat * Host)) :
  forall clientCh errCh st clientCh' errCh' st',
    connect_loop w sup network env bastion jobs clientCh errCh st =
      (Val (clientCh', errCh'), st') ->
    forall c, In c clientCh' ->
      In c clientCh \/
      exists i host s s',
        In (i, host) jobs /\
        go (host_goroutine w sup network env bastion i host) s = (Val (Ok c), s').
Proof.
  induction jobs as [|[i host] jobs IH];
    intros clientCh errCh st clientCh' errCh' st' Hloop c Hc.
  - simpl in Hloop. inversion Hloop; subst. now left.
  - simpl in Hloop. unfold bind at 1 in Hloop.
    destruct (go (host_goroutine w sup network env bastion i host) st)
      as [[[c0|e0]|msg|code] st1] eqn:Hg; try discriminate.
    + destruct (IH _ _ _ _ _ _ Hloop c Hc) as [Hin|[j [h [s [s' [Hin Hs]]]]]].
      * apply in_app_or in Hin. destruct Hin as [Hin | [Heq | []]];
          [now left|]. subst c0.
        right. exists i, host, st, st1. split; [now left|assumption].
      * right. exists j, h, s, s'. split; [now right|assumption].
    + destruct (IH _ _ _ _ _ _ Hloop c Hc) as [Hin|[j [h [s [s' [Hin Hs]]]]]].
      * now left.
      * right. exists j, h, s, s'. split; [now right|assumption].
Qed.

Lemma pick_color_value (w : World) (i : nat) (color : string) :
  pick_color w i = Val color ->
  color = nth (i mod List.length (Colors w)) (Colors w) "".
Proof.
  unfold pick_color. destruct (Colors w); [discriminate|].
  intros H. now inversion H.
Qed.

Lemma host_goroutine_remote (w : World) (sup : Stackup) (network : Network)
  (env : string) (bastion : option SSHClient) (i j : nat) (host : Host)
  (r : SSHClient) (s s' : state) :
  go (host_goroutine w sup network env bastion i host) s =
    (Val (Ok (Remote j r)), s') ->
  j = i /\
  r = mkSSHClient env
        (if User host =? "" then mkHost (Hostname host) (NetUser network)
         else host)
        (Password network)
        (nth (i mod List.length (Colors w)) (Colors w) "")
        (ignoreHostKey sup).
Proof.
  unfold go, host_goroutine. destruct (is_localhost host).
  - run_monad. destruct (client_Connect w _); intros H; inversion H.
  - run_monad. destruct (pick_color w i) as [color| |] eqn:Hc;
      [|discriminate|discriminate].
    apply pick_color_value in Hc. subst color.
    destruct bastion as [b|]; cbn beta iota.
    + destruct (client_ConnectWith w _ b); intros H; inversion H.
      split; reflexivity.
    + destruct (client_Connect w _); intros H; inversion H.
      split; reflexivity.
Qed.

(** X10: every remote unit that the connector hands over was built for the
    host at its position with the environment of the run, the password of
    the network, the host-key flag of the [Stackup], the colour of the
    palette at its position modulo the size of the palette, and the user of
    the host, or the user of the network when the host has none. *)
Theorem remote_units_carry_network_settings (w : World) (sup : Stackup)
  (network : Network) (env : string) (bastion : option SSHClient)
  (st st' : state) (clientCh : list Client) (errCh : list error)
  (i : nat) (r : SSHClient) :
  connect_hosts w sup network env bastion st = (Val (clientCh, errCh), st') ->
  In (Remote i r) clientCh ->
  exists host,
    nth_error (Hosts network) i = Some host /\
    ssh_env r = env /\
    ssh_password r = Password network /\
    ssh_ignoreHostKey r = ignoreHostKey sup /\
    ssh_color r = nth (i mod List.length (Colors w)) (Colors w) "" /\
    Hostname (ssh_host r) = Hostname host /\
    User (ssh_host r) = (if User host =? "" then NetUser network else User host).
Proof.
  intros Hconn Hin. unfold connect_hosts in Hconn.
  destruct (connect_loop_sent _ _ _ _ _ _ _ _ _ _ _ _ Hconn _ Hin)
    as [[]|[j [host [s [s' [Hjob Hg]]]]]].
  apply host_goroutine_remote in Hg. destruct Hg as [Hj Hr]. subst j.
  exists host. split; [eapply scheduled_In; eauto|].
  subst r. cbn [ssh_env ssh_password ssh_ignoreHostKey ssh_color ssh_host].
  repeat split; destruct (User host =? ""); reflexivity.
Qed.

Lemma remote_units_carry_network_settings_witness :
  exists host,
    nth_error (Hosts (Example.network ["127.0.0.1"; "web1"] None "pw" "")) 1
      = Some host /\
    ssh_env (mkSSHClient "" (mkHost "web1" "u") "pw" Example.yellow false) = "" /\
    ssh_password (mkSSHClient "" (mkHost "web1" "u") "pw" Example.yellow false)
      = Password (Example.network ["127.0.0.1"; "web1"] None "pw" "") /\
    ssh_ignoreHostKey
      (mkSSHClient "" (mkHost "web1" "u") "pw" Example.yellow false)
      = ignoreHostKey Example.sup /\
    ssh_color (mkSSHClient "" (mkHost "web1" "u") "pw" Example.yellow false)
      = nth (1 mod List.length (Colors Example.world))
            (Colors Example.world) "" /\
    Hostname (ssh_host
                (mkSSHClient "" (mkHost "web1" "u") "pw" Example.yellow false))
      = Hostname host /\
    User (ssh_host
            (mkSSHClient "" (mkHost "web1" "u") "pw" Example.yellow false))
      = (if User host =? ""
         then NetUser (Example.network ["127.0.0.1"; "web1"] None "pw" "")
         else User host).
Proof.
  apply (remote_units_carry_network_settings Example.world Example.sup
           (Example.network ["127.0.0.1"; "web1"] None "pw" "") "" None
           Example.start
           (snd (connect_hosts Example.world Example.sup
                   (Example.network ["127.0.0.1"; "web1"] None "pw" "") ""
                   None Example.start))
           [Local 0 (mkLocalhostClient
                       ("export SUP_HOST=" ++ dquote ++ "127.0.0.1"
                          ++ dquote ++ ";"));
            Remote 1 (mkSSHClient "" (mkHost "web1" "u") "pw"
                        Example.yellow false)]
           [] 1%nat
           (mkSSHClient "" (mkHost "web1" "u") "pw" Example.yellow false)).
  - reflexivity.
  - right. left. reflexivity.
Defined.

Lemma writes_connect_loop_with (P : event -> Prop) (w : World)
  (sup : Stackup) (network : Network) (env : string)
  (bastion : option SSHClient) (jobs : list (nat * Host)) :
  (forall i host, writes P (host_goroutine w sup network env bastion i host)) ->
  forall clientCh errCh,
    writes P (connect_loop w sup network env bastion jobs clientCh errCh).
Proof.
  intros Hg. induction jobs as [|[i host] jobs IH]; intros clientCh errCh; simpl.
  - apply writes_ret.
  - apply writes_bind.
    + apply writes_go, Hg.
    + intros [c|e]; apply IH.
Qed.

(** X11: once the relay is connected, every remote host is connected
    through it and none directly, while local hosts are connected directly;
    without a relay, every host is connected directly. *)
Theorem relay_routes_every_remote (w : World) (sup : Stackup)
  (network : Network) (env : string) (st : state) :
  (forall b, exists evs,
     events (snd (connect_hosts w sup network env (Some b) st)) =
       (events st ++ evs)%list /\
     Forall (routed_through b) evs) /\
  (exists evs,
     events (snd (connect_hosts w sup network env None st)) =
       (events st ++ evs)%list /\
     Forall connected_directly evs).
Proof.
  split; [intros b|]; apply writes_connect_loop_with; intros i host;
    unfold host_goroutine; destruct (is_localhost host).
  - apply writes_bind; [apply writes_emit; exact I|intros _].
    destruct (client_Connect w _); apply writes_ret.
  - apply writes_bind; [apply writes_lift|intros color].
    apply writes_bind; [apply writes_emit; reflexivity|intros _].
    destruct (client_ConnectWith w _ b); apply writes_ret.
  - apply writes_bind; [apply writes_emit; exact I|intros _].
    destruct (client_Connect w _); apply writes_ret.
  - apply writes_bind; [apply writes_lift|intros color].
    apply writes_bind; [apply writes_emit; exact I|intros _].
    destruct (client_Connect w _); apply writes_ret.
Qed.

Lemma scheduled_length {A} (order : list nat) (l : list A) :
  Permutation order (seq 0 (List.length l)) ->
  List.length (scheduled order l) = List.length l.
Proof.
  intros Hperm.
  assert (Hlen : forall order',
            (forall i, In i order' -> (i < List.length l)%nat) ->
            List.length (scheduled order' l) = List.length order').
  { induction order' as [|i order' IH]; intros Hin; [reflexivity|].
    unfold scheduled in *. simpl. rewrite length_app, IH.
    - destruct (nth_error l i) eqn:Hi; [reflexivity|].
      apply nth_error_None in Hi. specialize (Hin i (or_introl eq_refl)). lia.
    - intros j Hj. apply Hin. now right. }
  rewrite Hlen.
  - rewrite (Permutation_length Hperm). apply length_seq.
  - intros i Hi. apply (Permutation_in _ Hperm) in Hi.
    apply in_seq in Hi. lia.
Qed.

Lemma host_goroutine_reports (w : World) (sup : Stackup) (network : Network)
  (env : string) (bastion : option SSHClient) (i : nat) (host : Host)
  (st : state) :
  Colors w <> [] ->
  exists r e,
    go (host_goroutine w sup network env bastion i host) st =
      (Val r, mkState (publicKeysSigners st) (events st ++ [e])) /\
    is_host_attempt e = true.
Proof.
  intros Hcolors. unfold go, host_goroutine. destruct (is_localhost host).
  - run_monad. destruct (client_Connect w _); eexists; eexists; split;
      reflexivity.
  - run_monad. unfold pick_color.
    destruct (Colors w) as [|c cs]; [congruence|].
    destruct bastion as [b|]; cbn beta iota.
    + destruct (client_ConnectWith w _ b); eexists; eexists; split;
        reflexivity.
    + destruct (client_Connect w _); eexists; eexists; split; reflexivity.
Qed.

Lemma connect_loop_reports (w : World) (sup : Stackup) (network : Network)
  (env : string) (bastion : option SSHClient) (jobs : list (nat * Host)) :
  Colors w <> [] ->
  forall clientCh errCh st, exists clientCh' errCh' st',
    connect_loop w sup network env bastion jobs clientCh errCh st =
      (Val (clientCh', errCh'), st') /\
    (List.length clientCh' + List.length errCh' =
     List.length clientCh + List.length errCh + List.length jobs)%nat /\
    (List.length (filter is_host_attempt (events st')) =
     List.length (filter is_host_attempt (events st)) + List.length jobs)%nat.
Proof.
  intros Hcolors.
  induction jobs as [|[i host] jobs IH]; intros clientCh errCh st.
  - exists clientCh, errCh, st. simpl. repeat split; lia.
  - simpl connect_loop. unfold bind at 1.
    destruct (host_goroutine_reports w sup network env bastion i host st
                Hcolors) as [r [e [Hg He]]].
    rewrite Hg.
    assert (Hevents : List.length
              (filter is_host_attempt
                 (events (mkState (publicKeysSigners st) (events st ++ [e]))))
              = S (List.length (filter is_host_attempt (events st)))).
    { cbn [events]. rewrite filter_app, length_app. simpl. rewrite He.
      simpl. lia. }
    destruct r as [c|err].
    + destruct (IH (clientCh ++ [c])%list errCh
                  (mkState (publicKeysSigners st) (events st ++ [e])))
        as [cs [es [st' [Hloop [Hlen Hev]]]]].
      exists cs, es, st'. split; [exact Hloop|].
      rewrite length_app in Hlen. simpl in *. split; lia.
    + destruct (IH clientCh (errCh ++ [err])%list
                  (mkState (publicKeysSigners st) (events st ++ [e])))
        as [cs [es [st' [Hloop [Hlen Hev]]]]].
      exists cs, es, st'. split; [exact Hloop|].
      rewrite length_app in Hlen. simpl in *. split; lia.
Qed.

(** X12: with a palette that is not empty, and every host goroutine ending
    once, the connector makes exactly one connection attempt for each host,
    failed attempts not stopping the others, and each host leaves exactly
    one message, a client or an error, on the channels. *)
Theorem every_host_reports_once (w : World) (sup : Stackup)
  (network : Network) (env : string) (bastion : option SSHClient)
  (st : state) :
  Colors w <> [] ->
  Permutation (connect_order w) (seq 0 (List.length (Hosts network))) ->
  exists clientCh errCh st',
    connect_hosts w sup network env bastion st = (Val (clientCh, errCh), st') /\
    (List.length clientCh + List.length errCh = List.length (Hosts network))%nat /\
    (List.length (filter is_host_attempt (events st')) =
     List.length (filter is_host_attempt (events st)) +
     List.length (Hosts network))%nat.
Proof.
  intros Hcolors Hperm. unfold connect_hosts.
  destruct (connect_loop_reports w sup network env bastion
              (scheduled (connect_order w) (Hosts network)) Hcolors [] [] st)
    as [cs [es [st' [Hloop [Hlen Hev]]]]].
  rewrite (scheduled_length _ _ Hperm) in Hlen, Hev.
  exists cs, es, st'. simpl in Hlen. repeat split; assumption.
Qed.

Lemma every_host_reports_once_witness :
  exists clientCh errCh st',
    connect_hosts Example.world Example.sup
      (Example.network ["web1"; "down"; "127.0.0.1"; "down"] None "" "") ""
      None Example.start = (Val (clientCh, errCh), st') /\
    (List.length clientCh + List.length errCh = 4)%nat /\
    (List.length (filter is_host_attempt (events st')) = 0 + 4)%nat.
Proof.
  apply (every_host_reports_once Example.world Example.sup
           (Example.network ["web1"; "down"; "127.0.0.1"; "down"] None "" "")
           "" None Example.start).
  - discriminate.
  - apply Permutation_refl.
Defined.

(** X13: the drain of the client channel keeps every connected client, in
    the order of the channel; it defers one [Close] for each remote client
    and none for a local one, the last registered to run first; and the
    width it computes is not negative and not below the visual length of the
    prefix of any connected client. *)
Theorem drain_result (w : World) (clientCh : list Client) :
  let '(maxLen, clients, deferred) := drain w clientCh 0 [] [] in
  clients = clientCh /\
  deferred = rev (filter is_remote clientCh) /\
  (0 <= maxLen)%Z /\
  forall c, In c clientCh -> (snd (client_Prefix w c) <= maxLen)%Z.
Proof.
  rewrite drain_spec, app_nil_r.
  destruct (max_prefix_ge w clientCh 0) as [H0 Hc].
  repeat split; assumption.
Qed.

(** ** The deferred [Close] calls *)









(** X15: when every host has connected and the commands end without
    [os.Exit], [Run] returns what the command loop returns and, as its last
    act, closes every remote client that connected, once each, the last
    connected first; local clients are not closed. *)
Theorem returning_run_closes_remotes (w : World) (sup : Stackup)
  (network : Network) (envVars : EnvList) (commands : list Command)
  (st st1 st2 st3 st4 : state) (bastion : option SSHClient)
  (clientCh : list Client) (r : option error) :
  commands <> [] ->
  resolve_signers w network st = (Val tt, st1) ->
  connect_bastion w sup network st1 = (Val (Ok bastion), st2) ->
  connect_hosts w sup network (AsExport w envVars) bastion st2 =
    (Val (clientCh, []), st3) ->
  run_commands w sup (AsExport w envVars) (max_prefix w clientCh 0) clientCh
    commands st3 = (Val r, st4) ->
  Run w sup network envVars commands st =
    (Val r,
     mkState (publicKeysSigners st4)
       (events st4 ++ map EvClose (rev (filter is_remote clientCh)))).
Proof.
  intros Hcmds Hsigners Hbastion Hhosts Hloop.
  unfold Run. destruct commands as [|cmd commands]; [congruence|].
  cbn [List.length Nat.eqb]. unfold bind at 1. rewrite Hsigners.
  unfold bind at 1. rewrite Hbastion. unfold bind at 1. rewrite Hhosts.
  cbn [fst snd]. rewrite drain_spec, app_nil_r. cbn [app].
  unfold with_deferred. now rewrite Hloop.
Qed.

Lemma returning_run_closes_remotes_witness :
  fst (Run Example.world Example.sup
         (Example.network ["localhost"; "worker1"] None "" "") []
         [mkCommand "echo hello"] Example.start) = Val None /\
  filter is_close
    (events (snd (Run Example.world Example.sup
                    (Example.network ["localhost"; "worker1"] None "" "") []
                    [mkCommand "echo hello"] Example.start))) =
    [EvClose Example.worker1].
Proof.
  rewrite (returning_run_closes_remotes Example.world Example.sup
             (Example.network ["localhost"; "worker1"] None "" "") []
             [mkCommand "echo hello"] Example.start
             (mkState [Example.agent_signer] [])
             (mkState [Example.agent_signer] [])
             (snd (connect_hosts Example.world Example.sup
                     (Example.network ["localhost"; "worker1"] None "" "") ""
                     None (mkState [Example.agent_signer] [])))
             (snd (run_commands Example.world Example.sup "" 14
                     [Example.local0; Example.worker1]
                     [mkCommand "echo hello"]
                     (snd (connect_hosts Example.world Example.sup
                             (Example.network ["localhost"; "worker1"] None
                                "" "") ""
                             None (mkState [Example.agent_signer] [])))))
             None [Example.local0; Example.worker1] None);
    [split; reflexivity|discriminate|reflexivity|reflexivity|reflexivity
    |reflexivity].
Defined.

(** ** Starting and finishing a task *)

Lemma copies_started (w : World) (task : Task) (c : Client) (pfx : string)
  (st : state) :
  exists st1,
    (go (stdout_goroutine w task c pfx) ;;;
     go (stderr_goroutine w task c pfx)) st = (Val tt, st1) /\
    filter is_run (events st1) = filter is_run (events st).
Proof.
  unfold bind, go, stdout_goroutine, stderr_goroutine. run_monad.
  destruct (is_failure (copy_Stdout w c task)),
           (is_failure (copy_Stderr w c task));
    eexists; (split; [reflexivity|]); cbn [events];
    rewrite ?filter_app; simpl; now rewrite ?app_nil_r.
Qed.

Lemma start_units_failure (w : World) (sup : Stackup) (maxLen : Z)
  (task : Task) (c : Client) (err : error) (pfx : string)
  (after before : list Client) :
  Forall (fun c' => client_Run w c' task = None /\
                    exists p, padded_prefix w sup maxLen c' = Val p) before ->
  padded_prefix w sup maxLen c = Val pfx ->
  client_Run w c task = Some err ->
  forall writers st, exists st',
    start_units w sup maxLen task (before ++ c :: after) writers st =
      (Val (Err (ErrWrap err (pfx ++ "task failed"))), st') /\
    filter is_run (events st') =
      (filter is_run (events st) ++
       map (fun c' => EvRun c' task) (before ++ [c]))%list.
Proof.
  intros Hbefore Hp Hrun.
  induction Hbefore as [|c' before [Hc' [p Hp']] _ IH]; intros writers st.
  - cbn [app start_units]. unfold bind at 1, lift at 1. rewrite Hp.
    unfold bind at 1, emit at 1. rewrite Hrun. unfold ret.
    eexists. split; [reflexivity|]. cbn [events]. now rewrite filter_app.
  - cbn [app start_units]. unfold bind at 1, lift at 1. rewrite Hp'.
    unfold bind at 1, emit at 1. rewrite Hc'.
    set (st0 := mkState (publicKeysSigners st) (events st ++ [EvRun c' task])).
    destruct (copies_started w task c' p st0) as [st1 [Hcopies Hev]].
    assert (Hstep : forall (k : M (result (list Client))),
              (go (stdout_goroutine w task c' p) ;;;
               go (stderr_goroutine w task c' p) ;;; k) st0 = k st1).
    { intros k. unfold bind at 1. unfold bind at 1 in Hcopies.
      destruct (go (stdout_goroutine w task c' p) st0) as [[[]| |] s1];
        try discriminate.
      unfold bind at 1.
      destruct (go (stderr_goroutine w task c' p) s1) as [[[]| |] s2];
        try discriminate.
      inversion Hcopies. reflexivity. }
    rewrite Hstep.
    destruct (IH (writers ++ [c'])%list st1) as [st' [Hval Hruns]].
    exists st'. split; [exact Hval|]. rewrite Hruns, Hev. unfold st0.
    cbn [events]. rewrite filter_app. simpl. now rewrite <- app_assoc.
Qed.

(** X16: a task that fails to start on one of its clients is not started
    on the clients after it: [Run] on that task returns the error wrapped
    with the prefix of the client, after one call of [Run] on each client up
    to the failing one and none beyond. *)
Theorem task_start_failure_aborts (w : World) (sup : Stackup) (maxLen : Z)
  (clients : list Client) (task : Task) (c : Client) (err : error)
  (pfx : string) (before after : list Client) (st : state) :
  Clients task = (before ++ c :: after)%list ->
  Forall (fun c' => client_Run w c' task = None /\
                    exists p, padded_prefix w sup maxLen c' = Val p) before ->
  padded_prefix w sup maxLen c = Val pfx ->
  client_Run w c task = Some err ->
  fst (run_task w sup maxLen clients task st) =
    Val (Some (ErrWrap err (pfx ++ "task failed"))) /\
  filter is_run (events (snd (run_task w sup maxLen clients task st))) =
    (filter is_run (events st) ++
     map (fun c' => EvRun c' task) (before ++ [c]))%list.
Proof.
  intros Hcs Hbefore Hp Hrun.
  destruct (start_units_failure w sup maxLen task c err pfx after before
              Hbefore Hp Hrun [] st) as [st' [Hval Hruns]].
  assert (Htask : run_task w sup maxLen clients task st =
                  (Val (Some (ErrWrap err (pfx ++ "task failed"))), st')).
  { unfold run_task. rewrite Hcs. unfold bind at 1. now rewrite Hval. }
  rewrite Htask. now split.
Qed.

Lemma task_start_failure_aborts_witness :
  fst (run_task
         (mkWorld (Getenv Example.world) (user_Current Example.world)
            (filepath_Join Example.world) (filepath_Glob Example.world)
            (ioutil_ReadFile Example.world) (ssh_ParsePrivateKey Example.world)
            (ssh_ParsePrivateKeyWithPassphrase Example.world)
            (agent_Signers Example.world) (AsExport Example.world)
            (Colors Example.world) (bastion_Connect Example.world)
            (client_Connect Example.world) (client_ConnectWith Example.world)
            (client_Prefix Example.world) (createTasks Example.world)
            (fun c _ => if Example.host_of c =? "worker1"
                        then Some (ErrNew "ssh: session closed") else None)
            (client_Wait Example.world) (copy_Stdout Example.world)
            (copy_Stderr Example.world) (copy_Stdin Example.world)
            (connect_order Example.world) (wait_order Example.world))
         (mkStackup false false false) 14
         [Example.local0; Example.worker1;
          Example.remote 2 "web2" Example.green]
         (Example.echo [Example.local0; Example.worker1;
                        Example.remote 2 "web2" Example.green])
         Example.start) =
  Val (Some (ErrWrap (ErrNew "ssh: session closed") "task failed")).
Proof.
  refine (proj1 (task_start_failure_aborts _ (mkStackup false false false) 14
                   _ (Example.echo [Example.local0; Example.worker1;
                                    Example.remote 2 "web2" Example.green])
                   Example.worker1 (ErrNew "ssh: session closed") ""
                   [Example.local0] [Example.remote 2 "web2" Example.green]
                   Example.start _ _ _ _)).
  - reflexivity.
  - repeat constructor. now exists "".
  - reflexivity.
  - reflexivity.
Defined.

Lemma run_tasks_no_create (w : World) (sup : Stackup) (maxLen : Z)
  (clients : list Client) (tasks : list Task) :
  writes (fun e => is_create_tasks e = false)
         (run_tasks w sup maxLen clients tasks).
Proof.
  induction tasks as [|task tasks IH]; simpl; [apply writes_ret|].
  apply writes_bind; [|intros [e|]; [apply writes_ret|apply IH]].
  unfold run_task. apply writes_bind.
  { generalize (@nil Client).
    induction (Clients task) as [|c cs IHc]; intros writers; simpl;
      [apply writes_ret|].
    unfold stdout_goroutine, stderr_goroutine. writes_auto; apply IHc. }
  intros [writers|e]; [|apply writes_ret].
  apply writes_bind.
  { apply writes_go. unfold stdin_goroutine. writes_auto.
    all: apply writes_forM_; intros c; now apply writes_emit. }
  intros _. apply writes_bind; [now apply writes_emit|intros _].
  apply writes_bind.
  { unfold wait_phase. apply writes_forM_. intros c.
    unfold wait_goroutine. writes_auto. }
  intros _. writes_auto.
Qed.

Lemma run_commands_creates (w : World) (sup : Stackup) (env : string)
  (maxLen : Z) (clients : list Client) (commands : list Command) :
  forall st, exists n r st',
    run_commands w sup env maxLen clients commands st = (r, st') /\
    filter is_create_tasks (events st') =
      (filter is_create_tasks (events st) ++
       map (fun cmd => EvCreateTasks cmd clients) (firstn n commands))%list /\
    (r = Val None -> n = List.length commands).
Proof.
  induction commands as [|cmd commands IH]; intros st.
  - exists 0%nat, (Val None), st. simpl. rewrite app_nil_r. now repeat split.
  - cbn [run_commands]. unfold bind at 1, emit at 1.
    set (st0 := mkState (publicKeysSigners st)
                  (events st ++ [EvCreateTasks cmd clients])).
    assert (Hst0 : filter is_create_tasks (events st0) =
                   (filter is_create_tasks (events st) ++
                    [EvCreateTasks cmd clients])%list).
    { unfold st0. cbn [events]. now rewrite filter_app. }
    destruct (createTasks w cmd clients env) as [tasks|e].
    + unfold bind at 1.
      pose proof (writes_filter is_create_tasks
                    (run_tasks w sup maxLen clients tasks) st0
                    (run_tasks_no_create w sup maxLen clients tasks)) as Ht.
      destruct (run_tasks w sup maxLen clients tasks st0)
        as [[[e|]|m|c] st1]; cbn [snd] in Ht.
      * exists 1%nat, (Val (Some e)), st1. unfold ret.
        repeat split; [now rewrite Ht, Hst0|discriminate].
      * destruct (IH st1) as [n [r [st' [Hrun [Hn Hlen]]]]].
        exists (S n), r, st'. repeat split; [exact Hrun| |].
        -- rewrite Hn, Ht, Hst0. simpl. now rewrite <- app_assoc.
        -- intros Hnil. simpl. f_equal. now apply Hlen.
      * exists 1%nat, (Panic m), st1.
        repeat split; [now rewrite Ht, Hst0|discriminate].
      * exists 1%nat, (Exit c), st1.
        repeat split; [now rewrite Ht, Hst0|discriminate].
    + exists 1%nat, (Val (Some (ErrWrap e "creating task failed"))), st0.
      unfold ret. repeat split; [now rewrite Hst0|discriminate].
Qed.

(** X17: the commands are translated one at a time, in the order given,
    each with the whole connected set: the calls of [createTasks] made by the
    command loop are those for a starting segment of the commands, and for
    all of them when the loop returns [nil]. *)
Theorem commands_translated_in_order (w : World) (sup : Stackup)
  (env : string) (maxLen : Z) (clients : list Client)
  (commands : list Command) (st : state) :
  exists n,
    filter is_create_tasks
      (events (snd (run_commands w sup env maxLen clients commands st))) =
      (filter is_create_tasks (events st) ++
       map (fun cmd => EvCreateTasks cmd clients) (firstn n commands))%list /\
    (fst (run_commands w sup env maxLen clients commands st) = Val None ->
     n = List.length commands).
Proof.
  destruct (run_commands_creates w sup env maxLen clients commands st)
    as [n [r [st' [Hrun [Hn Hlen]]]]].
  exists n. rewrite Hrun. now split.
Qed.

Lemma wait_all_done (w : World) (sup : Stackup) (maxLen : Z) (task : Task)
  (l : list Client) :
  Forall (fun c => client_Wait w c task = None) l ->
  forall st,
    forM_ l (fun c => go (wait_goroutine w sup maxLen task c)) st =
      (Val tt, mkState (publicKeysSigners st) (events st ++ map EvWait l)).
Proof.
  induction 1 as [|c l Hc _ IH]; intros st.
  - simpl. rewrite app_nil_r. now destruct st.
  - cbn [forM_ map]. unfold bind at 1.
    rewrite (wait_goroutine_done w sup maxLen task c st Hc), IH.
    cbn [publicKeysSigners events]. now rewrite <- app_assoc.
Qed.

(** X18: a task that has started on all its clients and whose clients all
    end without error returns [nil]: after the input goroutine is spawned
    the relay of interrupts is registered, [Wait] is called once on each
    client of the task, in the order in which the waiting goroutines end, and
    the relay is removed last. *)
Theorem task_completes (w : World) (sup : Stackup) (maxLen : Z)
  (clients : list Client) (task : Task) (st st1 : state)
  (writers : list Client) :
  start_units w sup maxLen task (Clients task) [] st = (Val (Ok writers), st1) ->
  Forall (fun c => client_Wait w c task = None) (Clients task) ->
  let st2 := snd (go (stdin_goroutine w clients task writers) st1) in
  run_task w sup maxLen clients task st =
    (Val None,
     mkState (publicKeysSigners st2)
       (events st2 ++
        EvNotify ::
        map EvWait (map snd (scheduled (wait_order w task) (Clients task))) ++
        [EvSignalStop])).
Proof.
  intros Hstart Hwait st2.
  assert (Hsched : Forall (fun c => client_Wait w c task = None)
                     (map snd (scheduled (wait_order w task) (Clients task)))).
  { apply Forall_forall. intros c Hc. apply scheduled_incl in Hc.
    revert c Hc. now apply Forall_forall. }
  unfold run_task. unfold bind at 1. rewrite Hstart. unfold bind at 1.
  pose proof (stdin_goroutine_returns w clients task writers st1) as Hin.
  subst st2.
  destruct (go (stdin_goroutine w clients task writers) st1) as [o s2].
  simpl in Hin. subst o. cbn [snd].
  unfold bind at 1, emit at 1. unfold bind at 1. unfold wait_phase.
  rewrite (wait_all_done w sup maxLen task _ Hsched).
  unfold bind, emit, ret. cbn [publicKeysSigners events].
  now rewrite <- !app_assoc.
Qed.

Lemma task_completes_witness :
  run_task Example.world Example.sup 14 [Example.local0; Example.worker1]
    (Example.echo [Example.local0; Example.worker1]) Example.start =
  (Val None,
   mkState
     (publicKeysSigners
        (snd (go (stdin_goroutine Example.world
                    [Example.local0; Example.worker1]
                    (Example.echo [Example.local0; Example.worker1])
                    [Example.local0; Example.worker1])
                 (snd (start_units Example.world Example.sup 14
                         (Example.echo [Example.local0; Example.worker1])
                         [Example.local0; Example.worker1] []
                         Example.start)))))
     (events
        (snd (go (stdin_goroutine Example.world
                    [Example.local0; Example.worker1]
                    (Example.echo [Example.local0; Example.worker1])
                    [Example.local0; Example.worker1])
                 (snd (start_units Example.world Example.sup 14
                         (Example.echo [Example.local0; Example.worker1])
                         [Example.local0; Example.worker1] []
                         Example.start)))) ++
      [EvNotify; EvWait Example.worker1; EvWait Example.local0;
       EvSignalStop])).
Proof.
  apply (task_completes Example.world Example.sup 14
           [Example.local0; Example.worker1]
           (Example.echo [Example.local0; Example.worker1]) Example.start
           (snd (start_units Example.world Example.sup 14
                   (Example.echo [Example.local0; Example.worker1])
                   [Example.local0; Example.worker1] [] Example.start))
           [Example.local0; Example.worker1]).
  - reflexivity.
  - repeat constructor.
Defined.

Lemma start_units_writers (w : World) (sup : Stackup) (maxLen : Z)
  (task : Task) (cs : list Client) :
  forall writers st writers' st',
    start_units w sup maxLen task cs writers st = (Val (Ok writers'), st') ->
    writers' = (writers ++ cs)%list /\
    Forall (fun c => client_Run w c task = None) cs.
Proof.
  induction cs as [|c cs IH]; intros writers st writers' st' Hstart.
  - simpl in Hstart. inversion Hstart. rewrite app_nil_r. now split.
  - simpl in Hstart. unfold bind at 1, lift at 1 in Hstart.
    destruct (padded_prefix w sup maxLen c) as [pfx| |]; try discriminate.
    unfold bind at 1, emit at 1 in Hstart.
    destruct (client_Run w c task) eqn:Hrun; [discriminate|].
    unfold bind at 1 in Hstart.
    destruct (go (stdout_goroutine w task c pfx) _) as [[[]| |] s1];
      try discriminate.
    unfold bind at 1 in Hstart.
    destruct (go (stderr_goroutine w task c pfx) _) as [[[]| |] s2];
      try discriminate.
    destruct (IH _ _ _ _ Hstart) as [Hw Hcs].
    rewrite <- app_assoc in Hw. split; [exact Hw|now constructor].
Qed.

(** X19: the writers that the input of a task is copied to are the
    standard inputs of exactly the clients of the task, in their order, and
    they are only collected when [Run] has succeeded on every one of them. *)
Theorem input_goes_to_bound_units (w : World) (sup : Stackup) (maxLen : Z)
  (task : Task) (st st' : state) (writers : list Client) :
  start_units w sup maxLen task (Clients task) [] st = (Val (Ok writers), st') ->
  writers = Clients task /\
  Forall (fun c => client_Run w c task = None) (Clients task).
Proof.
  intros Hstart. now apply (start_units_writers _ _ _ _ _ _ _ _ _ Hstart).
Qed.

Lemma input_goes_to_bound_units_witness :
  [Example.local0] = Clients (Example.upload [Example.local0]) /\
  Forall (fun c => client_Run Example.world c
                     (Example.upload [Example.local0]) = None)
         (Clients (Example.upload [Example.local0])).
Proof.
  apply (input_goes_to_bound_units Example.world Example.sup 14
           (Example.upload [Example.local0]) Example.start
           (snd (start_units Example.world Example.sup 14
                   (Example.upload [Example.local0]) [Example.local0] []
                   Example.start))
           [Example.local0]).
  reflexivity.
Defined.

(** X20: [WriteClose] is called only at the end of the copy of a task's
    input: a task without input, or whose input copy does not end while the
    task runs, closes the input of no client. *)
Theorem no_input_no_write_close (w : World) (sup : Stackup) (maxLen : Z)
  (clients : list Client) (task : Task) (st : state) :
  Input task = None \/ copy_Stdin w task = None ->
  filter is_write_close
    (events (snd (run_task w sup maxLen clients task st))) =
  filter is_write_close (events st).
Proof.
  intros Hin. apply writes_filter.
  unfold run_task. apply writes_bind; [apply writes_start_units|].
  intros [writers|e]; [|apply writes_ret].
  apply writes_bind.
  { apply writes_go. unfold stdin_goroutine.
    destruct (Input task) as [input|]; [|apply writes_ret].
    destruct Hin as [Hin|Hin]; [discriminate|]. rewrite Hin.
    writes_auto. }
  intros _. apply writes_bind; [now apply writes_emit|intros _].
  apply writes_bind; [apply writes_wait_phase|intros _]. writes_auto.
Qed.

Lemma no_input_no_write_close_witness :
  filter is_write_close
    (events (snd (run_task Example.world Example.sup 14
                    [Example.local0; Example.worker1]
                    (Example.echo [Example.local0; Example.worker1])
                    Example.start))) = [].
Proof.
  apply (no_input_no_write_close Example.world Example.sup 14
           [Example.local0; Example.worker1]
           (Example.echo [Example.local0; Example.worker1]) Example.start).
  left. reflexivity.
Defined.

(** ** The width of the prefixes *)

Lemma repeat_string_length (n : nat) :
  String.length (Go.repeat_string " " n) = n.
Proof. induction n as [|n IH]; simpl; [reflexivity|now rewrite IH]. Qed.

(** X21: a prefix whose text is as long in bytes as its visual length (no
    colour sequence) and not wider than [maxLen] is written left-padded with
    spaces to exactly [maxLen] bytes. *)
Theorem plain_prefix_is_aligned (w : World) (sup : Stackup) (maxLen : Z)
  (c : Client) :
  prefix sup = true ->
  Go.len (fst (client_Prefix w c)) = snd (client_Prefix w c) ->
  (snd (client_Prefix w c) <= maxLen)%Z ->
  exists n,
    padded_prefix w sup maxLen c =
      Val (Go.repeat_string " " n ++ fst (client_Prefix w c)) /\
    Go.len (Go.repeat_string " " n ++ fst (client_Prefix w c)) = maxLen.
Proof.
  intros Hp Hplain Hle.
  destruct (Z.eq_dec (snd (client_Prefix w c)) maxLen) as [Heq|Hne].
  - exists 0%nat. split.
    + apply padded_prefix_long; [assumption|lia].
    + simpl. congruence.
  - exists (Z.to_nat (maxLen - snd (client_Prefix w c))). split.
    + apply padded_prefix_short; [assumption|lia|assumption].
    + unfold Go.len in *. rewrite string_length_app, repeat_string_length.
      lia.
Qed.

Lemma plain_prefix_is_aligned_witness :
  exists n,
    padded_prefix
      (mkWorld (Getenv Example.world) (user_Current Example.world)
         (filepath_Join Example.world) (filepath_Glob Example.world)
         (ioutil_ReadFile Example.world) (ssh_ParsePrivateKey Example.world)
         (ssh_ParsePrivateKeyWithPassphrase Example.world)
         (agent_Signers Example.world) (AsExport Example.world)
         (Colors Example.world) (bastion_Connect Example.world)
         (client_Connect Example.world) (client_ConnectWith Example.world)
         (fun c => (Example.host_of c ++ " | ",
                    Go.len (Example.host_of c ++ " | ")))
         (createTasks Example.world) (client_Run Example.world)
         (client_Wait Example.world) (copy_Stdout Example.world)
         (copy_Stderr Example.world) (copy_Stdin Example.world)
         (connect_order Example.world) (wait_order Example.world))
      Example.sup 12 (Example.remote 1 "web1" "") =
      Val (Go.repeat_string " " n ++ "web1 | ") /\
    Go.len (Go.repeat_string " " n ++ "web1 | ") = 12%Z.
Proof.
  apply (plain_prefix_is_aligned
           (mkWorld (Getenv Example.world) (user_Current Example.world)
              (filepath_Join Example.world) (filepath_Glob Example.world)
              (ioutil_ReadFile Example.world)
              (ssh_ParsePrivateKey Example.world)
              (ssh_ParsePrivateKeyWithPassphrase Example.world)
              (agent_Signers Example.world) (AsExport Example.world)
              (Colors Example.world) (bastion_Connect Example.world)
              (client_Connect Example.world)
              (client_ConnectWith Example.world)
              (fun c => (Example.host_of c ++ " | ",
                         Go.len (Example.host_of c ++ " | ")))
              (createTasks Example.world) (client_Run Example.world)
              (client_Wait Example.world) (copy_Stdout Example.world)
              (copy_Stderr Example.world) (copy_Stdin Example.world)
              (connect_order Example.world) (wait_order Example.world))
           Example.sup 12 (Example.remote 1 "web1" ""));
    [reflexivity|reflexivity|vm_compute; discriminate].
Defined.
